(** * Latent-Stars: the spectral-type pipeline of the H-R diagram and the
    latent-space plot

  A shallow embedding of [backend/src/color_palette.py],
  [backend/src/hr_diagram_plot.py] and [backend/src/latent_space_plot_3d.py].

  Conventions of the embedding.
  - Catalog text is ASCII.  A Python [str] is a [string]; a character is an
    [ascii], and [upper], [strip] and the regular-expression classes follow
    Python on the code points below 128 (above them a character is left
    alone and is neither white space, a digit nor a letter).
  - A missing cell of a pandas frame ([NaN] / [None]) is [None].
  - The only floats the classifier builds are [float(d)] for one decimal
    digit [d] and the constant [5.0]; these are the integers 0..9, and are
    carried as such in [Z].
  - Effects are explicit: the lines written to standard output and the URLs
    requested are returned next to the result. *)

From Stdlib Require Import String Ascii List ZArith NArith Bool Lia PeanoNat.
From Stdlib Require Import Sorted.
From Stdlib Require QArith_base.
Import ListNotations.

Open Scope string_scope.

(** ** Python's [str] operations, on ASCII text *)

Module Text.

Definition code (c : ascii) : N := N_of_ascii c.

Definition between (lo hi : N) (c : ascii) : bool :=
  (lo <=? code c)%N && (code c <=? hi)%N.

(** [str.isspace] on one character: TAB, LF, VT, FF, CR, the four
    separators FS, GS, RS, US, and the space. *)
Definition isspace (c : ascii) : bool := between 9 13 c || between 28 32 c.

(** The class [\d]. *)
Definition isdigit (c : ascii) : bool := between 48 57 c.

Definition islower (c : ascii) : bool := between 97 122 c.
Definition isupper (c : ascii) : bool := between 65 90 c.

(** The class [[a-zA-Z]]. *)
Definition isalpha (c : ascii) : bool := isupper c || islower c.

Definition upper_char (c : ascii) : ascii :=
  if islower c then ascii_of_N (code c - 32) else c.

(** [s.upper()] *)
Fixpoint upper (s : string) : string :=
  match s with
  | EmptyString => EmptyString
  | String c s' => String (upper_char c) (upper s')
  end.

Fixpoint lstrip (s : string) : string :=
  match s with
  | EmptyString => EmptyString
  | String c s' => if isspace c then lstrip s' else s
  end.

Fixpoint rstrip (s : string) : string :=
  match s with
  | EmptyString => EmptyString
  | String c s' =>
      match rstrip s' with
      | EmptyString => if isspace c then EmptyString else String c EmptyString
      | r => String c r
      end
  end.

(** [s.strip()] *)
Definition strip (s : string) : string := rstrip (lstrip s).

(** [float(d)] for a one-digit string [d]. *)
Definition float_of_digit (d : ascii) : Z := Z.of_N (code d) - 48.

Definition chars (s : string) : list ascii := list_ascii_of_string s.

End Text.

(** ** [color_palette.py] *)

Module ColorPalette.

(** A dict literal, in the order it is written (the order Python iterates
    it in). *)
Definition dict (V : Type) : Type := list (string * V).

(** [d.get(k)]: the value of the first entry under key [k]. *)
Fixpoint get {V : Type} (d : dict V) (k : string) : option V :=
  match d with
  | [] => None
  | (k', v) :: d' => if String.eqb k k' then Some v else get d' k
  end.

Definition keys {V : Type} (d : dict V) : list string := map fst d.
Definition values {V : Type} (d : dict V) : list V := map snd d.

Definition COLOR_MAP : dict string :=
  [ ("O", "#8bd1ff"); ("B", "#a7caff"); ("A", "#dae9ff"); ("F", "#fff7e8");
    ("G", "#ffe9b5"); ("K", "#ffcd89"); ("M", "#ffa77d"); ("D", "#ffffff");
    ("N", "#a52a2a"); ("C", "#800000"); ("R", "#cd5c5c"); ("P", "#7fffd4");
    ("S", "#ffd700"); ("W", "#fd3db5") ].

Definition spectral_map : dict Z :=
  [ ("W", 0); ("O", 1); ("B", 2); ("A", 3); ("F", 4); ("G", 5); ("K", 6);
    ("M", 7); ("S", 8); ("R", 9); ("C", 10); ("N", 11); ("D", 12);
    ("P", 13) ]%Z.

(** [Series.map(COLOR_MAP)] on one cell: a missing cell stays missing, a key
    the dict lacks becomes missing. *)
Definition map_cell {V : Type} (d : dict V) (cell : option string) : option V :=
  match cell with
  | None => None
  | Some k => get d k
  end.

End ColorPalette.

(** ** [hr_diagram_plot.py]: the classifier *)

Module Classifier.
Import Text.

(** The character class [[OBAFGKMRNSWCPLD]]. *)
Definition class_letters : list ascii :=
  chars "OBAFGKMRNSWCPLD".

Definition is_class_letter (c : ascii) : bool :=
  existsb (Ascii.eqb c) class_letters.

(** [re.search(r'([OBAFGKMRNSWCPLD])(\d)?', s)]: the leftmost position at
    which the pattern matches, with its two groups.  The optional group is
    greedy and nothing follows it, so it holds the next character exactly
    when that character is a digit. *)
Fixpoint re_search (s : string) : option (ascii * option ascii) :=
  match s with
  | EmptyString => None
  | String c rest =>
      if is_class_letter c then
        Some (c, match rest with
                 | String d _ => if isdigit d then Some d else None
                 | EmptyString => None
                 end)
      else re_search rest
  end.

(** [extract_spectral_data(spect)].  [pd.isna(spect)] is the missing cell,
    [not spect] the empty string. *)
Definition extract_spectral_data (spect : option string)
  : option string * option Z :=
  match spect with
  | None => (None, None)
  | Some EmptyString => (None, None)
  | Some raw =>
      let spect := strip (upper raw) in
      match re_search spect with
      | Some (spect_class, spect_num) =>
          match spect_num with
          | Some d => (Some (String spect_class EmptyString), Some (float_of_digit d))
          | None => (Some (String spect_class EmptyString), Some 5%Z)
          end
      | None => (None, None)
      end
  end.

End Classifier.

(** ** [hr_diagram_plot.py]: retrieval and normalisation *)

Module HRDiagram.
Import Text ColorPalette Classifier.

(** The exceptions that matter to the control flow.  [RequestException]
    stands for [requests.exceptions.RequestException] and its subclasses
    (connection errors, timeouts, [HTTPError], ...); [ValueError] is raised
    by pandas; [OtherException] is anything else. *)
Inductive request_error : Type :=
| ConnectionError
| Timeout
| HTTPError (status_code : Z)
| OtherRequestError.

Inductive exn : Type :=
| RequestException (e : request_error)
| ValueError
| OtherException.

(** What a call does: it returns a value or it raises. *)
Inductive outcome (A : Type) : Type :=
| Returned (a : A)
| Raised (e : exn).
Arguments Returned {A} a.
Arguments Raised {A} e.

(** [bytes], and the [io.BytesIO] buffer over them. *)
Definition bytes : Type := string.

Record Response : Type := mkResponse
  { status_code : Z;
    content : bytes }.

(** [response.raise_for_status()]: an [HTTPError] for a 4xx or 5xx status. *)
Definition raise_for_status (r : Response) : outcome unit :=
  if ((400 <=? status_code r) && (status_code r <? 600))%Z
  then Raised (RequestException (HTTPError (status_code r)))
  else Returned tt.

Definition HYG_URLS : list string :=
  [ "https://codeberg.org/astronexus/hyg/media/branch/main/data/hyg/CURRENT/hyg_v42.csv.gz";
    "https://drive.google.com/uc?export=download&id=1U2apsUPjQR_DllzF74y-pV3KjVTK3FJW" ].

(** The lines [download_data] prints. *)
Inductive download_line : Type :=
| StartingPipeline
| TryingURL (url : string)
| DownloadSuccessful
| ErrorDownloading (url : string) (e : request_error)
| TryingNextURL
| AllAttemptsFailed.

Section Download.

(** [requests.get(url, timeout=30)], as the network answers it. *)
Variable get : string -> outcome Response.

(** The body of the [try]: the request, the status check, the buffer. *)
Definition attempt (url : string) : outcome bytes :=
  match get url with
  | Raised e => Raised e
  | Returned response =>
      match raise_for_status response with
      | Raised e => Raised e
      | Returned _ => Returned (content response)
      end
  end.

(** The [for url in HYG_URLS] loop with its [try]/[except]: only a
    [RequestException] is caught, any other exception leaves the function.
    After the loop comes the [return None]. *)
Fixpoint download_loop (urls : list string)
  : outcome (option bytes) * list download_line :=
  match urls with
  | [] => (Returned None, [AllAttemptsFailed])
  | url :: urls' =>
      match attempt url with
      | Returned hyg_file =>
          (Returned (Some hyg_file), [TryingURL url; DownloadSuccessful])
      | Raised (RequestException e) =>
          let (r, out) := download_loop urls' in
          (r, TryingURL url :: ErrorDownloading url e :: TryingNextURL :: out)
      | Raised e => (Raised e, [TryingURL url])
      end
  end.

Definition download_data : outcome (option bytes) * list download_line :=
  let (r, out) := download_loop HYG_URLS in
  (r, StartingPipeline :: out).

(** The URLs requested, read off the printed lines. *)
Definition requested (out : list download_line) : list string :=
  flat_map (fun l => match l with TryingURL url => [url] | _ => [] end) out.

End Download.

Section Normalizer.

(** The type of a float cell, and of the columns of the catalog that the
    pipeline never looks at. *)
Variables (float other : Type).

(** One row of the frame [pd.read_csv] builds. *)
Record CatalogRecord : Type := mkCatalogRecord
  { id : Z;
    absmag : option float;
    ci : option float;
    lum : option float;
    spect : option string;
    others : other }.

(** The same row once [spect_class], [spect_num] and [color] are added. *)
Record PlottableRow : Type := mkPlottableRow
  { record : CatalogRecord;
    spect_class : option string;
    spect_num : option Z;
    color : option string }.

(** A frame: its rows in order, each under its index label. *)
Definition DataFrame (R : Type) : Type := list (nat * R).

(** The [RangeIndex] a freshly read frame has. *)
Definition range_index {R : Type} (rows : list R) : DataFrame R :=
  combine (seq 0 (length rows)) rows.

(** The lines [process_data] prints. *)
Inductive process_line : Type :=
| TotalStars (n : nat)
| ProcessingError
| RowBeforeChange (cells : DataFrame (option string))
| RowAfterChange (cells : DataFrame (option string))
| StarsRemaining (n : nat)
| DatasetHead (rows : DataFrame PlottableRow)
| DatasetTail (rows : DataFrame PlottableRow).

(** [pd.read_csv(hyg_file, compression='gzip')]: the rows, or [None] when
    reading or decompressing raises. *)
Variable read_csv : bytes -> option (list CatalogRecord).

Definition present {A : Type} (cell : option A) : bool :=
  match cell with Some _ => true | None => false end.

(** [df.dropna(subset=['absmag', 'ci', 'spect'])] *)
Definition dropna (df : DataFrame CatalogRecord) : DataFrame CatalogRecord :=
  filter (fun r => present (absmag (snd r)) && present (ci (snd r))
                   && present (spect (snd r))) df.

Definition star_id_to_correct : Z := 65218.

(** [df.loc[df['id'] == star_id_to_correct]['spect']] *)
Definition select_spect (df : DataFrame CatalogRecord) : DataFrame (option string) :=
  map (fun r => (fst r, spect (snd r)))
      (filter (fun r => (id (snd r) =? star_id_to_correct)%Z) df).

Definition set_spect (r : CatalogRecord) (v : string) : CatalogRecord :=
  {| id := id r; absmag := absmag r; ci := ci r; lum := lum r;
     spect := Some v; others := others r |}.

(** [df.loc[df['id'] == 65218, 'spect'] = 'F7'] *)
Definition correct_anomaly (df : DataFrame CatalogRecord) : DataFrame CatalogRecord :=
  map (fun r => if (id (snd r) =? 65218)%Z
                then (fst r, set_spect (snd r) "F7") else r) df.

(** The two column assignments, row by row: the pair
    [extract_spectral_data] returns, then [COLOR_MAP] mapped over the
    class. *)
Definition add_columns (r : CatalogRecord) : PlottableRow :=
  let (cls, num) := extract_spectral_data (spect r) in
  {| record := r; spect_class := cls; spect_num := num;
     color := map_cell COLOR_MAP cls |}.

(** [df.head()] and [df.tail()] *)
Definition head {R : Type} (df : DataFrame R) : DataFrame R := firstn 5 df.
Definition tail {R : Type} (df : DataFrame R) : DataFrame R :=
  skipn (length df - 5) df.

(** [process_data(hyg_file)].  Over a frame with no rows, [Series.apply]
    never calls the function and hands back an empty [Series]; assigning
    that to the two columns raises pandas' [ValueError] ("Columns must be
    same length as key"), which nothing catches. *)
Definition process_data (hyg_file : bytes)
  : outcome (option (DataFrame PlottableRow)) * list process_line :=
  match read_csv hyg_file with
  | None => (Returned None, [ProcessingError])
  | Some rows =>
      let df0 := dropna (range_index rows) in
      let df := correct_anomaly df0 in
      let out := [ TotalStars (length rows);
                   RowBeforeChange (select_spect df0);
                   RowAfterChange (select_spect df) ] in
      match df with
      | [] => (Raised ValueError, out)
      | _ :: _ =>
          let df' := map (fun r => (fst r, add_columns (snd r))) df in
          (Returned (Some df'),
           (out ++ [ StarsRemaining (length df'); DatasetHead (head df');
                     DatasetTail (tail df') ])%list)
      end
  end.

End Normalizer.

Arguments id {float other} _.
Arguments absmag {float other} _.
Arguments ci {float other} _.
Arguments lum {float other} _.
Arguments spect {float other} _.
Arguments others {float other} _.
Arguments mkCatalogRecord {float other} _ _ _ _ _ _.
Arguments record {float other} _.
Arguments spect_class {float other} _.
Arguments spect_num {float other} _.
Arguments color {float other} _.
Arguments mkPlottableRow {float other} _ _ _ _.
Arguments dropna {float other} _.
Arguments select_spect {float other} _.
Arguments set_spect {float other} _ _.
Arguments correct_anomaly {float other} _.
Arguments add_columns {float other} _.
Arguments process_data {float other} _ _.
Arguments TotalStars {float other} _.
Arguments ProcessingError {float other}.
Arguments RowBeforeChange {float other} _.
Arguments RowAfterChange {float other} _.
Arguments StarsRemaining {float other} _.
Arguments DatasetHead {float other} _.
Arguments DatasetTail {float other} _.

End HRDiagram.

(** ** [latent_space_plot_3d.py]: the colour column *)

Module LatentSpace.
Import Text ColorPalette.

(** [.str[0]] on one cell: the first character; missing for a missing cell
    and for the empty string. *)
Definition str_0 (cell : option string) : option string :=
  match cell with
  | Some (String c _) => Some (String c EmptyString)
  | _ => None
  end.

(** [.str.upper()] on one cell. *)
Definition str_upper (cell : option string) : option string :=
  option_map upper cell.

(** [df['spect'].str[0].str.upper().map(COLOR_MAP)], on one cell. *)
Definition color_of_spect (spect : option string) : option string :=
  map_cell COLOR_MAP (str_upper (str_0 spect)).

End LatentSpace.

(** ** The pattern the specification tests the classifier against *)

Module SpecPattern.
Import Text Classifier.

(** What the pattern
    [^\s*[a-zA-Z]*([OBAFGKMRNSWCPLD])(\d)?.*$] is made of.  The pattern is
    applied with [re.match], which anchors it at the start. *)
Inductive item : Type :=
| Star (p : ascii -> bool)
| Group (p : ascii -> bool)
| OptGroup (p : ascii -> bool)
| EndOfString.

(** The groups of a match, in the order they occur in the pattern; an
    optional group that took nothing holds [None]. *)
Definition groups : Type := list (option ascii).

(** A greedy [x*]: the longest run first, then one character less each time
    the rest of the pattern fails. *)
Fixpoint star (p : ascii -> bool) (next : string -> option groups) (s : string)
  : option groups :=
  match s with
  | String c s' =>
      if p c then
        match star p next s' with
        | Some g => Some g
        | None => next s
        end
      else next s
  | EmptyString => next s
  end.

Definition capture (p : ascii -> bool) (next : string -> option groups) (s : string)
  : option groups :=
  match s with
  | String c s' => if p c then option_map (cons (Some c)) (next s') else None
  | EmptyString => None
  end.

(** [$] without [re.MULTILINE]: the end, or just before a final newline. *)
Definition at_end (s : string) : bool :=
  match s with
  | EmptyString => true
  | String c EmptyString => Ascii.eqb c "010"%char
  | _ => false
  end.

(** A backtracking matcher, as Python's [re] runs the pattern. *)
Fixpoint run (items : list item) (s : string) : option groups :=
  match items with
  | [] => Some []
  | Star p :: k => star p (run k) s
  | Group p :: k => capture p (run k) s
  | OptGroup p :: k =>
      match capture p (run k) s with
      | Some g => Some g
      | None => option_map (cons None) (run k s)
      end
  | EndOfString :: k => if at_end s then run k s else None
  end.

(** The classes under [re.IGNORECASE]; [.] is any character but a newline. *)
Definition class_letter_ci (c : ascii) : bool := is_class_letter (upper_char c).
Definition dot (c : ascii) : bool := negb (Ascii.eqb c "010"%char).

Definition pattern : list item :=
  [ Star isspace; Star isalpha; Group class_letter_ci; OptGroup isdigit;
    Star dot; EndOfString ].

(** [re.match(pattern, raw, re.IGNORECASE)] *)
Definition spec_match (raw : string) : option groups := run pattern raw.

(** What the specification says [classify] returns on a matching string:
    the matched letter upper-cased, with the digit after it as a float,
    otherwise 5.0. *)
Definition spec_classify (raw : string) : option (string * Z) :=
  match spec_match raw with
  | Some [Some letter; Some d] =>
      Some (String (upper_char letter) EmptyString, float_of_digit d)
  | Some [Some letter; None] =>
      Some (String (upper_char letter) EmptyString, 5%Z)
  | _ => None
  end.

End SpecPattern.

(** ** Vocabulary of the statements *)

Module Reading.
Import Text Classifier HRDiagram.

(** No character of [s] is one of the fifteen class letters. *)
Definition no_class_letter (s : string) : Prop :=
  Forall (fun c => is_class_letter c = false) (chars s).

(** [c] is the first class letter of [s], and [rest] is what follows it. *)
Definition first_class_letter (s : string) (c : ascii) (rest : string) : Prop :=
  exists pre, s = pre ++ String c rest
              /\ no_class_letter pre /\ is_class_letter c = true.

(** The digit [rest] starts with, if it starts with one. *)
Definition next_digit (rest : string) : option ascii :=
  match rest with
  | String d _ => if isdigit d then Some d else None
  | EmptyString => None
  end.

(** The digit right after the letter, as a float; 5.0 without one. *)
Definition intensity_after (rest : string) : Z :=
  match next_digit rest with
  | Some d => float_of_digit d
  | None => 5%Z
  end.

(** Every character of [s] is in the class [p]. *)
Definition all (p : ascii -> bool) (s : string) : Prop :=
  Forall (fun c => p c = true) (chars s).

(** No character of [s] is a class letter in either case. *)
Definition no_class_letter_ci (s : string) : Prop :=
  Forall (fun c => is_class_letter (upper_char c) = false) (chars s).

(** A source fails when the request or the status check raises a
    [RequestException]. *)
Definition fails (get : string -> outcome Response) (url : string) : Prop :=
  exists e, attempt get url = Raised (RequestException e).

(** The required cells of a row are there. *)
Definition required {float other : Type} (r : CatalogRecord float other) : bool :=
  present (absmag r) && present (ci r) && present (spect r).

(** How often the label [l] occurs in a frame. *)
Definition occurrences {R : Type} (l : nat) (df : DataFrame R) : nat :=
  List.length (filter (fun x => Nat.eqb (fst x) l) df).

(** The row the anomaly correction leaves in place of [r]. *)
Definition corrected {float other : Type} (r : CatalogRecord float other)
  : CatalogRecord float other :=
  if (id r =? 65218)%Z then set_spect r "F7" else r.

(** The frame [process_data] builds from the rows it read. *)
Definition normalized {float other : Type} (rows : list (CatalogRecord float other))
  : DataFrame (PlottableRow float other) :=
  map (fun r => (fst r, add_columns (snd r)))
      (correct_anomaly (dropna (range_index rows))).

End Reading.

(** ** Sample runs *)

Module Scenario.
Import HRDiagram.

(** The first source times out, the second one answers. *)
Definition timeout_then_ok (url : string) : outcome Response :=
  if String.eqb url (hd EmptyString HYG_URLS)
  then Raised (RequestException Timeout)
  else Returned {| status_code := 200%Z; content := "payload" |}.

(** The first source answers 503, the second one cannot be reached. *)
Definition all_down (url : string) : outcome Response :=
  if String.eqb url (hd EmptyString HYG_URLS)
  then Returned {| status_code := 503%Z; content := "Service Unavailable" |}
  else Raised (RequestException ConnectionError).

Definition Q : Type := QArith_base.Q.
Definition decimal (n : Z) (d : positive) : Q := QArith_base.Qmake n d.

(** The rows of the end-to-end scenario, and one more whose spectral type
    holds no class letter. *)
Definition row_G2V : CatalogRecord Q unit :=
  mkCatalogRecord 1%Z (Some (decimal 48 10)) (Some (decimal 65 100))
    (Some (decimal 1 1)) (Some "G2V") tt.

Definition row_O5 : CatalogRecord Q unit :=
  mkCatalogRecord 2%Z (Some (decimal (-5) 1)) (Some (decimal (-2) 10))
    (Some (decimal 50000 1)) (Some "O5") tt.

Definition row_anomaly : CatalogRecord Q unit :=
  mkCatalogRecord 65218%Z (Some (decimal 2 1)) (Some (decimal 1 10))
    (Some (decimal 2 1)) (Some "(G3w)F7") tt.

Definition row_no_spect : CatalogRecord Q unit :=
  mkCatalogRecord 3%Z (Some (decimal 1 1)) (Some (decimal 12 10))
    (Some (decimal 10 1)) None tt.

Definition row_unclassifiable : CatalogRecord Q unit :=
  mkCatalogRecord 4%Z (Some (decimal 3 1)) (Some (decimal 5 10))
    (Some (decimal 7 1)) (Some "+...") tt.

Definition catalog : list (CatalogRecord Q unit) :=
  [ row_G2V; row_O5; row_anomaly; row_no_spect; row_unclassifiable ].

Definition read_catalog (hyg_file : bytes) : option (list (CatalogRecord Q unit)) :=
  Some catalog.

Definition unreadable (hyg_file : bytes) : option (list (CatalogRecord Q unit)) :=
  None.

End Scenario.

(** ** [hr_diagram_plot.py]: the legend and the entry point *)

Module Renderer.
Import ColorPalette HRDiagram.

(** [mpatches.Patch(color=color, label=star_type)] *)
Record Patch : Type := mkPatch
  { patch_color : string;
    patch_label : string }.

(** The loop of [create_plot] over [COLOR_MAP.items()], appending one patch
    per entry to [legend_patches]. *)
Definition legend_patches : list Patch :=
  fold_left (fun patches item =>
               let (star_type, color) := item : string * string in
               (patches ++ [mkPatch color star_type])%list)
            COLOR_MAP [].

Section Main.

Variables (float other : Type).
Variable get : string -> outcome Response.
Variable read_csv : bytes -> option (list (CatalogRecord float other)).

(** [create_plot(df, output_path)], as the plotting library answers it. *)
Variable create_plot :
  DataFrame (PlottableRow float other) -> string -> outcome unit.

(** What a run does, in order: the lines of the two steps, and the call of
    [create_plot]. *)
Inductive event : Type :=
| Downloading (l : download_line)
| Processing (l : process_line float other)
| Plotting (df : DataFrame (PlottableRow float other)) (output_path : string).

(** [main()].  A [BytesIO] buffer is always true, so [if hyg_file:] tells
    [None] from a buffer. *)
Definition main : outcome unit * list event :=
  let (r, out) := download_data get in
  let log := map Downloading out in
  match r with
  | Raised e => (Raised e, log)
  | Returned None => (Returned tt, log)
  | Returned (Some hyg_file) =>
      let (r', out') := process_data read_csv hyg_file in
      let log' := (log ++ map Processing out')%list in
      match r' with
      | Raised e => (Raised e, log')
      | Returned None => (Returned tt, log')
      | Returned (Some df) =>
          let log'' := (log' ++ [Plotting df "hr_diagram.png"])%list in
          match create_plot df "hr_diagram.png" with
          | Raised e => (Raised e, log'')
          | Returned _ => (Returned tt, log'')
          end
      end
  end.

End Main.

Arguments Downloading {float other} _.
Arguments Processing {float other} _.
Arguments Plotting {float other} _ _.
Arguments main {float other} _ _ _.

End Renderer.

(** ** Further sample runs *)

Module Samples.
Import HRDiagram Scenario.

(** The first source times out, the second one fails outside [requests]. *)
Definition timeout_then_fault (url : string) : outcome Response :=
  if String.eqb url (hd EmptyString HYG_URLS)
  then Raised (RequestException Timeout)
  else Raised OtherException.

(** The anomalous star, listed without a spectral type. *)
Definition row_anomaly_no_spect : CatalogRecord Q unit :=
  mkCatalogRecord 65218%Z (Some (decimal 2 1)) (Some (decimal 1 10))
    (Some (decimal 2 1)) None tt.

(** A second row of the anomalous star. *)
Definition row_anomaly_again : CatalogRecord Q unit :=
  mkCatalogRecord 65218%Z (Some (decimal 21 10)) (Some (decimal 1 10))
    None (Some "G3") tt.

Definition catalog_anomalies : list (CatalogRecord Q unit) :=
  [ row_anomaly_no_spect; row_G2V; row_anomaly; row_anomaly_again ].

Definition read_anomalies (hyg_file : bytes) : option (list (CatalogRecord Q unit)) :=
  Some catalog_anomalies.


(** A plotting library that draws and saves. *)
Definition plot_ok (df : DataFrame (PlottableRow Q unit)) (output_path : string)
  : outcome unit :=
  Returned tt.

End Samples.

(** * Properties *)

Import Text ColorPalette Classifier HRDiagram LatentSpace SpecPattern Reading
  Scenario Renderer Samples.

(** ** The classifier on sample spectral types *)

Example classify_G2V : extract_spectral_data (Some "G2V") = (Some "G", Some 2%Z).
Proof. reflexivity. Qed.

Example classify_lower_case :
  extract_spectral_data (Some "  m3iii ") = (Some "M", Some 3%Z).
Proof. reflexivity. Qed.

Example classify_no_digit : extract_spectral_data (Some "K") = (Some "K", Some 5%Z).
Proof. reflexivity. Qed.

Example classify_blank : extract_spectral_data (Some "   ") = (None, None).
Proof. reflexivity. Qed.

Example spec_classify_G2V : spec_classify "G2V" = Some ("G", 2%Z).
Proof. reflexivity. Qed.

Example spec_match_composite : spec_match "(G3w)F7" = None.
Proof. reflexivity. Qed.

Example spec_classify_DA5 : spec_classify "DA5" = Some ("A", 5%Z).
Proof. reflexivity. Qed.

Example spec_classify_sdM4 : spec_classify "sdM4" = Some ("M", 4%Z).
Proof. reflexivity. Qed.

(** ** Character classes *)

Lemma isspace_not_class_letter (c : ascii) :
  isspace c = true -> is_class_letter c = false.
Proof.
  destruct c as [[] [] [] [] [] [] [] []]; vm_compute; congruence.
Qed.

Lemma isspace_not_digit (c : ascii) : isspace c = true -> isdigit c = false.
Proof.
  destruct c as [[] [] [] [] [] [] [] []]; vm_compute; congruence.
Qed.

Lemma upper_char_space (c : ascii) : isspace (upper_char c) = isspace c.
Proof.
  destruct c as [[] [] [] [] [] [] [] []]; reflexivity.
Qed.

Lemma upper_char_digit (c : ascii) : isdigit c = true -> upper_char c = c.
Proof.
  destruct c as [[] [] [] [] [] [] [] []]; vm_compute; congruence.
Qed.

Lemma upper_char_digit_iff (c : ascii) : isdigit (upper_char c) = isdigit c.
Proof.
  destruct c as [[] [] [] [] [] [] [] []]; reflexivity.
Qed.

(** ** [strip] leaves the search alone *)

Lemma rstrip_head (s : string) (a : ascii) (r : string) :
  rstrip s = String a r -> exists s', s = String a s'.
Proof.
  destruct s as [|c s']; simpl; [discriminate|].
  destruct (rstrip s'); [destruct (isspace c)|]; intros H; inversion H; eauto.
Qed.

Lemma rstrip_empty (s : string) :
  rstrip s = EmptyString -> Forall (fun c => isspace c = true) (chars s).
Proof.
  induction s as [|c s' IH]; simpl; intros H; [constructor|].
  destruct (rstrip s') eqn:E; [|discriminate].
  destruct (isspace c) eqn:Ec; [|discriminate].
  constructor; auto.
Qed.

Lemma re_search_spaces (s : string) :
  Forall (fun c => isspace c = true) (chars s) -> re_search s = None.
Proof.
  induction s as [|c s' IH]; simpl; intros H; [reflexivity|].
  inversion H; subst.
  rewrite (isspace_not_class_letter c); auto.
Qed.

Lemma re_search_lstrip (s : string) : re_search (lstrip s) = re_search s.
Proof.
  induction s as [|c s' IH]; simpl; [reflexivity|].
  destruct (isspace c) eqn:Ec; [|reflexivity].
  rewrite (isspace_not_class_letter c Ec). exact IH.
Qed.

Lemma re_search_cons (c : ascii) (s : string) :
  re_search (String c s) =
    if is_class_letter c then
      Some (c, match s with
               | String d _ => if isdigit d then Some d else None
               | EmptyString => None
               end)
    else re_search s.
Proof. reflexivity. Qed.

Lemma re_search_rstrip (s : string) : re_search (rstrip s) = re_search s.
Proof.
  induction s as [|c s' IH]; [reflexivity|].
  cbn [rstrip]. rewrite (re_search_cons c s').
  destruct (rstrip s') as [|a r] eqn:E.
  - pose proof (rstrip_empty s' E) as Hsp.
    rewrite (re_search_spaces s' Hsp).
    destruct (isspace c) eqn:Ec.
    + rewrite (isspace_not_class_letter c Ec). reflexivity.
    + rewrite re_search_cons. destruct (is_class_letter c); [|reflexivity].
      destruct s' as [|d s'']; [reflexivity|].
      inversion Hsp; subst. rewrite (isspace_not_digit d); auto.
  - destruct (rstrip_head s' a r E) as [s'' ->].
    rewrite re_search_cons.
    destruct (is_class_letter c); [reflexivity | exact IH].
Qed.

Lemma re_search_strip (s : string) : re_search (strip s) = re_search s.
Proof.
  unfold strip. rewrite re_search_rstrip. apply re_search_lstrip.
Qed.

(** ** What the search finds *)

Lemma re_search_None (s : string) : re_search s = None <-> no_class_letter s.
Proof.
  unfold no_class_letter.
  induction s as [|c s' IH]; simpl.
  - split; [constructor | reflexivity].
  - destruct (is_class_letter c) eqn:Ec.
    + split; [discriminate|]. intros H. inversion H; congruence.
    + rewrite IH. split; [constructor; assumption|]. intros H. now inversion H.
Qed.

Lemma re_search_Some (s : string) (c : ascii) (d : option ascii) :
  re_search s = Some (c, d) ->
  exists rest, first_class_letter s c rest /\ d = next_digit rest.
Proof.
  induction s as [|a s' IH]; simpl; [discriminate|].
  destruct (is_class_letter a) eqn:Ea.
  - intros H. inversion H; subst. exists s'. split; [|reflexivity].
    exists EmptyString. repeat split; [constructor | assumption].
  - intros H. destruct (IH H) as (rest & (pre & -> & Hpre & Hc) & Hd).
    exists rest. split; [|assumption].
    exists (String a pre). repeat split; [constructor|]; assumption.
Qed.

Lemma extract_nonempty (raw : string) :
  extract_spectral_data (Some raw) =
    match re_search (strip (upper raw)) with
    | Some (c, Some d) => (Some (String c EmptyString), Some (float_of_digit d))
    | Some (c, None) => (Some (String c EmptyString), Some 5%Z)
    | None => (None, None)
    end.
Proof.
  destruct raw; reflexivity.
Qed.

(** C3.  [extract_spectral_data] returns the pair of absent outputs exactly
    when its input is missing, or empty, or a string whose upper-cased and
    trimmed form holds no class letter; on every other input both outputs
    are present. *)
Theorem classify_absent_exactly (spect : option string) :
  (extract_spectral_data spect = (None, None) <->
     spect = None \/ spect = Some EmptyString
     \/ exists raw, spect = Some raw /\ no_class_letter (strip (upper raw)))
  /\ (extract_spectral_data spect = (None, None)
      \/ exists c n, extract_spectral_data spect = (Some c, Some n)).
Proof.
  destruct spect as [raw|].
  2:{ split; [split; auto | left; reflexivity]. }
  destruct raw as [|a raw'].
  1:{ split; [split; auto | left; reflexivity]. }
  rewrite extract_nonempty.
  set (raw := String a raw').
  destruct (re_search (strip (upper raw))) as [[c [d|]]|] eqn:E.
  - split; [|right; eauto]. split; [discriminate|].
    intros [H|[H|(r & H & Hn)]]; try discriminate.
    inversion H; subst r. apply re_search_None in Hn. congruence.
  - split; [|right; eauto]. split; [discriminate|].
    intros [H|[H|(r & H & Hn)]]; try discriminate.
    inversion H; subst r. apply re_search_None in Hn. congruence.
  - split; [|left; reflexivity]. split; [|reflexivity].
    intros _. right; right. exists raw. split; [reflexivity|].
    apply re_search_None. exact E.
Qed.

(** ** The two tables *)

Lemma get_absent {V : Type} (d : dict V) (k : string) :
  ~ In k (keys d) -> get d k = None.
Proof.
  induction d as [|[k' v] d' IH]; simpl; intros H; [reflexivity|].
  destruct (String.eqb_spec k k') as [->|_]; [exfalso; auto | apply IH; auto].
Qed.

Lemma get_entry {V : Type} (d : dict V) (k : string) (v : V) :
  get d k = Some v -> In (k, v) d.
Proof.
  induction d as [|[k' v'] d' IH]; simpl; [discriminate|].
  destruct (String.eqb_spec k k') as [->|_].
  - intros H; inversion H; auto.
  - auto.
Qed.

Lemma entry_get {V : Type} (d : dict V) (k : string) (v : V) :
  NoDup (keys d) -> In (k, v) d -> get d k = Some v.
Proof.
  induction d as [|[k' v'] d' IH]; simpl; intros Hnd Hin; [contradiction|].
  inversion Hnd as [|x l Hx Hnd']; subst.
  destruct Hin as [H|H].
  - inversion H; subst. now rewrite String.eqb_refl.
  - destruct (String.eqb_spec k k') as [->|_]; [|auto].
    exfalso. apply Hx. change k' with (fst (k', v)). now apply in_map.
Qed.

Lemma NoDup_by_nodup {A : Type} (dec : forall x y : A, {x = y} + {x <> y})
  (l : list A) : nodup dec l = l -> NoDup l.
Proof. intros <-. apply NoDup_nodup. Qed.

Lemma COLOR_MAP_keys_NoDup : NoDup (keys COLOR_MAP).
Proof. apply (NoDup_by_nodup string_dec). reflexivity. Qed.

Lemma spectral_map_keys_NoDup : NoDup (keys spectral_map).
Proof. apply (NoDup_by_nodup string_dec). reflexivity. Qed.

(** C4.  The colour of a class letter is a lookup in [COLOR_MAP], a table of
    fourteen entries, and nothing else: ["O"] has colour ["#8bd1ff"], a
    letter without an entry (such as ["L"] and ["Z"]) and the absent class
    have none, every entry is returned under its letter, and a colour that
    is returned is the table's. *)
Theorem resolve_color_lookup :
  length COLOR_MAP = 14%nat
  /\ map_cell COLOR_MAP (Some "O") = Some "#8bd1ff"
  /\ map_cell COLOR_MAP (Some "L") = None
  /\ map_cell COLOR_MAP (Some "Z") = None
  /\ map_cell COLOR_MAP None = None
  /\ (forall k, ~ In k (keys COLOR_MAP) -> map_cell COLOR_MAP (Some k) = None)
  /\ (forall k v, In (k, v) COLOR_MAP <-> map_cell COLOR_MAP (Some k) = Some v).
Proof.
  repeat split; try reflexivity.
  - intros k H. apply get_absent, H.
  - apply entry_get, COLOR_MAP_keys_NoDup.
  - apply get_entry.
Qed.

(** The fourteen class letters of the tables, in spectral order. *)
Lemma in_tables_letters (k : string) :
  In k (keys spectral_map) <-> In k (keys COLOR_MAP).
Proof.
  split; simpl; intros H;
    repeat (destruct H as [<-|H]; [auto 20|]); contradiction.
Qed.

(** C9.  [COLOR_MAP] and [spectral_map] are constants over the same fourteen
    class letters W, O, B, A, F, G, K, M, S, R, C, N, D, P, each letter once
    in each table; the ranks of [spectral_map] are pairwise distinct and are
    exactly the integers 0 to 13. *)
Theorem tables_same_letters :
  keys spectral_map
    = ["W"; "O"; "B"; "A"; "F"; "G"; "K"; "M"; "S"; "R"; "C"; "N"; "D"; "P"]
  /\ length (keys COLOR_MAP) = 14%nat
  /\ NoDup (keys COLOR_MAP) /\ NoDup (keys spectral_map)
  /\ (forall k, In k (keys COLOR_MAP) <-> In k (keys spectral_map))
  /\ NoDup (values spectral_map)
  /\ (forall z, In z (values spectral_map) <-> (0 <= z <= 13)%Z)
  /\ (forall k, In k (keys spectral_map) <->
                exists z, get spectral_map k = Some z /\ (0 <= z <= 13)%Z).
Proof.
  split; [reflexivity|]. split; [reflexivity|].
  split; [exact COLOR_MAP_keys_NoDup|]. split; [exact spectral_map_keys_NoDup|].
  split; [intros k; symmetry; apply in_tables_letters|].
  split; [apply (NoDup_by_nodup Z.eq_dec); reflexivity|].
  split.
  - intros z; split.
    + simpl; intros H; repeat (destruct H as [<-|H]; [lia|]); contradiction.
    + intros H. assert (E : (z = 0 \/ z = 1 \/ z = 2 \/ z = 3 \/ z = 4 \/ z = 5
        \/ z = 6 \/ z = 7 \/ z = 8 \/ z = 9 \/ z = 10 \/ z = 11 \/ z = 12
        \/ z = 13)%Z) by lia.
      simpl. intuition auto.
  - intros k; split.
    + simpl; intros H;
        repeat (destruct H as [<-|H]; [eexists; split; [reflexivity|lia]|]);
        contradiction.
    + intros (z & H & _). apply get_entry in H.
      change k with (fst (k, z)). now apply in_map.
Qed.

(** ** Retrieval *)

Section DownloadFacts.

Variable get : string -> outcome Response.

Local Open Scope list_scope.

Lemma raise_for_status_error (r : Response) :
  (400 <= status_code r < 600)%Z ->
  raise_for_status r = Raised (RequestException (HTTPError (status_code r))).
Proof.
  intros H. unfold raise_for_status.
  replace (400 <=? status_code r)%Z with true by (symmetry; apply Z.leb_le; lia).
  replace (status_code r <? 600)%Z with true by (symmetry; apply Z.ltb_lt; lia).
  reflexivity.
Qed.

Lemma download_loop_first_success (pre : list string) (url : string)
  (post : list string) (hyg_file : bytes) :
  Forall (fails get) pre ->
  attempt get url = Returned hyg_file ->
  fst (download_loop get (pre ++ url :: post)) = Returned (Some hyg_file)
  /\ requested (snd (download_loop get (pre ++ url :: post))) = pre ++ [url].
Proof.
  intros Hpre Hurl. induction Hpre as [|u pre' [e Hu] _ IH]; simpl.
  - rewrite Hurl. split; reflexivity.
  - rewrite Hu.
    destruct (download_loop get (pre' ++ url :: post)) as [r out].
    simpl in *. destruct IH as [-> ->]. split; reflexivity.
Qed.

Lemma download_loop_all_fail (urls : list string) :
  Forall (fails get) urls ->
  fst (download_loop get urls) = Returned None
  /\ requested (snd (download_loop get urls)) = urls.
Proof.
  intros H. induction H as [|u urls' [e Hu] _ IH]; simpl.
  - split; reflexivity.
  - rewrite Hu. destruct (download_loop get urls') as [r out].
    simpl in *. destruct IH as [-> ->]. split; reflexivity.
Qed.

(** Where the loop stops, when a source can only fail by a
    [RequestException]. *)
Lemma download_loop_split (urls : list string) :
  (forall url e, In url urls -> attempt get url = Raised e ->
                 exists r, e = RequestException r) ->
  (exists pre url post hyg_file,
      urls = pre ++ url :: post /\ Forall (fails get) pre
      /\ attempt get url = Returned hyg_file)
  \/ Forall (fails get) urls.
Proof.
  induction urls as [|u urls' IH]; intros H; [right; constructor|].
  destruct (attempt get u) as [hyg_file|e] eqn:Hu.
  - left. exists [], u, urls', hyg_file. repeat split; [constructor | exact Hu].
  - destruct (H u e (or_introl eq_refl) Hu) as [r ->].
    destruct IH as [(pre & url & post & f & -> & Hpre & Hurl)|Hall].
    + intros url e' Hin. apply H. now right.
    + left. exists (u :: pre), url, post, f.
      repeat split; [constructor; [exists r|]; assumption | exact Hurl].
    + right. constructor; [exists r|]; assumption.
Qed.

(** C7.  When each source either answers or fails with a
    [RequestException] (a network error, a timeout, an error status),
    [download_data] returns, requesting the sources in order: the payload of
    the first source that answers, after which no further source is
    requested; or, every source having failed, [None], the explicit no-data
    result. *)
Theorem download_first_success :
  (forall url e, In url HYG_URLS -> attempt get url = Raised e ->
                 exists r, e = RequestException r) ->
  (exists pre url post hyg_file,
      HYG_URLS = pre ++ url :: post
      /\ Forall (fails get) pre
      /\ attempt get url = Returned hyg_file
      /\ fst (download_data get) = Returned (Some hyg_file)
      /\ requested (snd (download_data get)) = pre ++ [url])
  \/ (Forall (fails get) HYG_URLS
      /\ fst (download_data get) = Returned None
      /\ requested (snd (download_data get)) = HYG_URLS).
Proof.
  intros H. unfold download_data.
  destruct (download_loop_split HYG_URLS H)
    as [(pre & url & post & f & E & Hpre & Hurl)|Hall].
  - left. exists pre, url, post, f.
    destruct (download_loop_first_success pre url post f Hpre Hurl) as [Hr Ho].
    rewrite <- E in Hr, Ho.
    destruct (download_loop get HYG_URLS) as [r out]. simpl in *.
    repeat split; assumption.
  - right. destruct (download_loop_all_fail HYG_URLS Hall) as [Hr Ho].
    destruct (download_loop get HYG_URLS) as [r out]. simpl in *.
    repeat split; assumption.
Qed.

End DownloadFacts.

Lemma download_fallback_witness :
  (exists pre url post hyg_file,
      HYG_URLS = (pre ++ url :: post)%list
      /\ Forall (fails timeout_then_ok) pre
      /\ attempt timeout_then_ok url = Returned hyg_file
      /\ fst (download_data timeout_then_ok) = Returned (Some hyg_file)
      /\ requested (snd (download_data timeout_then_ok)) = (pre ++ [url])%list)
  \/ (Forall (fails timeout_then_ok) HYG_URLS
      /\ fst (download_data timeout_then_ok) = Returned None
      /\ requested (snd (download_data timeout_then_ok)) = HYG_URLS).
Proof.
  apply (download_first_success timeout_then_ok).
  intros url e [<-|[<-|[]]]; vm_compute; intros H; inversion H; eauto.
Defined.

(** The fallback scenario: the first source times out, the second answers. *)
Example download_fallback :
  download_data timeout_then_ok
  = (Returned (Some "payload"),
     [ StartingPipeline;
       TryingURL (nth 0 HYG_URLS ""); ErrorDownloading (nth 0 HYG_URLS "") Timeout;
       TryingNextURL;
       TryingURL (nth 1 HYG_URLS ""); DownloadSuccessful ]).
Proof. reflexivity. Qed.

Example download_all_down :
  download_data all_down
  = (Returned None,
     [ StartingPipeline;
       TryingURL (nth 0 HYG_URLS "");
       ErrorDownloading (nth 0 HYG_URLS "") (HTTPError 503); TryingNextURL;
       TryingURL (nth 1 HYG_URLS "");
       ErrorDownloading (nth 1 HYG_URLS "") ConnectionError; TryingNextURL;
       AllAttemptsFailed ]).
Proof. reflexivity. Qed.

(** An exception that is not a [RequestException] is not caught. *)
Example download_not_caught :
  download_data (fun _ => Raised OtherException)
  = (Raised OtherException, [StartingPipeline; TryingURL (nth 0 HYG_URLS "")]).
Proof. reflexivity. Qed.

(** ** Frames *)

Section FrameFacts.

Local Open Scope list_scope.

Variable R : Type.

Lemma in_combine_seq (rows : list R) (a l : nat) (r : R) :
  In (l, r) (combine (seq a (List.length rows)) rows)
  <-> a <= l /\ nth_error rows (l - a) = Some r.
Proof.
  revert a; induction rows as [|x rows' IH]; intros a; simpl.
  - split; [contradiction|]. intros [_ H]. destruct (l - a); discriminate.
  - rewrite IH. split.
    + intros [H|[Hle Hn]].
      * inversion H; subst. split; [lia|]. now rewrite Nat.sub_diag.
      * split; [lia|]. replace (l - a) with (S (l - S a)) by lia. exact Hn.
    + intros [Hle Hn]. destruct (Nat.eq_dec a l) as [->|Hne].
      * left. rewrite Nat.sub_diag in Hn. simpl in Hn. congruence.
      * right. split; [lia|].
        replace (l - a) with (S (l - S a)) in Hn by lia. exact Hn.
Qed.

Lemma range_index_In (rows : list R) (l : nat) (r : R) :
  In (l, r) (range_index rows) <-> nth_error rows l = Some r.
Proof.
  unfold range_index. rewrite in_combine_seq, Nat.sub_0_r.
  split; [intros [_ H]; exact H | intros H; split; [lia | exact H]].
Qed.

Lemma combine_seq_labels (rows : list R) (a : nat) :
  map fst (combine (seq a (List.length rows)) rows) = seq a (List.length rows).
Proof.
  revert a; induction rows as [|x rows' IH]; intros a; simpl;
    [reflexivity | now rewrite IH].
Qed.

Lemma range_index_NoDup (rows : list R) : NoDup (map fst (range_index rows)).
Proof.
  unfold range_index. rewrite combine_seq_labels. apply seq_NoDup.
Qed.

Lemma filter_labels_NoDup (f : nat * R -> bool) (df : DataFrame R) :
  NoDup (map fst df) -> NoDup (map fst (filter f df)).
Proof.
  induction df as [|x df' IH]; simpl; intros H; [constructor|].
  inversion H as [|y l Hx Hnd]; subst.
  destruct (f x); simpl; [|auto].
  constructor; [|auto].
  intros Hin. apply Hx. apply in_map_iff in Hin.
  destruct Hin as (z & Hz & Hin). apply filter_In in Hin.
  rewrite <- Hz. apply in_map. tauto.
Qed.

Lemma occurrences_absent (l : nat) (df : DataFrame R) :
  ~ In l (map fst df) -> occurrences l df = 0.
Proof.
  unfold occurrences.
  induction df as [|x df' IH]; simpl; intros H; [reflexivity|].
  destruct (Nat.eqb_spec (fst x) l) as [E|_]; [exfalso; auto | auto].
Qed.

(** A row under a label that is not repeated occurs once. *)
Lemma occurrences_once (l : nat) (r : R) (df : DataFrame R) :
  NoDup (map fst df) -> In (l, r) df -> occurrences l df = 1.
Proof.
  induction df as [|x df' IH]; simpl; intros Hnd Hin; [contradiction|].
  inversion Hnd as [|y ls Hx Hnd']; subst.
  unfold occurrences in *. simpl.
  destruct Hin as [->|Hin].
  - simpl. rewrite Nat.eqb_refl. simpl. f_equal.
    now apply occurrences_absent.
  - destruct (Nat.eqb_spec (fst x) l) as [E|_]; [|auto].
    exfalso. apply Hx. rewrite E. change l with (fst (l, r)). now apply in_map.
Qed.

End FrameFacts.

(** ** Normalisation *)

Section NormalizerFacts.

Local Open Scope list_scope.

Variables (float other : Type).
Variable read_csv : bytes -> option (list (CatalogRecord float other)).

Lemma correct_anomaly_In (df : DataFrame (CatalogRecord float other))
  (l : nat) (r : CatalogRecord float other) :
  In (l, r) (correct_anomaly df) <-> exists r0, In (l, r0) df /\ r = corrected r0.
Proof.
  unfold correct_anomaly, corrected. rewrite in_map_iff. split.
  - intros ([l0 r0] & E & Hin). simpl in E. exists r0.
    destruct (id r0 =? 65218)%Z; inversion E; subst; auto.
  - intros (r0 & Hin & ->). exists (l, r0). split; [|exact Hin].
    simpl. now destruct (id r0 =? 65218)%Z.
Qed.

Lemma correct_anomaly_labels (df : DataFrame (CatalogRecord float other)) :
  map fst (correct_anomaly df) = map fst df.
Proof.
  unfold correct_anomaly. rewrite map_map. apply map_ext.
  intros [l r]; simpl. now destruct (id r =? 65218)%Z.
Qed.

Lemma normalized_In (rows : list (CatalogRecord float other)) (l : nat)
  (p : PlottableRow float other) :
  In (l, p) (normalized rows)
  <-> exists r0, nth_error rows l = Some r0 /\ required r0 = true
                 /\ p = add_columns (corrected r0).
Proof.
  unfold normalized. rewrite in_map_iff. split.
  - intros ([l' r] & E & Hin). simpl in E. inversion E; subst.
    apply correct_anomaly_In in Hin. destruct Hin as (r0 & Hin & ->).
    unfold dropna in Hin. apply filter_In in Hin. destruct Hin as [Hin Hreq].
    apply range_index_In in Hin. exists r0. auto.
  - intros (r0 & Hn & Hreq & ->). exists (l, corrected r0). split; [reflexivity|].
    apply correct_anomaly_In. exists r0. split; [|reflexivity].
    unfold dropna. apply filter_In. split; [|exact Hreq].
    now apply range_index_In.
Qed.

Lemma normalized_NoDup (rows : list (CatalogRecord float other)) :
  NoDup (map fst (normalized rows)).
Proof.
  unfold normalized. rewrite map_map. simpl.
  change (fun x : nat * CatalogRecord float other => fst x)
    with (@fst nat (CatalogRecord float other)).
  rewrite correct_anomaly_labels. unfold dropna.
  apply filter_labels_NoDup, range_index_NoDup.
Qed.

(** What [process_data] returns once the file is read. *)
Lemma process_data_read (hyg_file : bytes)
  (rows : list (CatalogRecord float other)) :
  read_csv hyg_file = Some rows ->
  fst (process_data read_csv hyg_file)
  = match normalized rows with
    | [] => Raised ValueError
    | _ :: _ => Returned (Some (normalized rows))
    end.
Proof.
  intros H. unfold process_data, normalized. rewrite H.
  destruct (correct_anomaly (dropna (range_index rows))); reflexivity.
Qed.

Lemma process_data_returned (hyg_file : bytes)
  (rows : list (CatalogRecord float other))
  (out : DataFrame (PlottableRow float other)) :
  read_csv hyg_file = Some rows ->
  fst (process_data read_csv hyg_file) = Returned (Some out) ->
  out = normalized rows.
Proof.
  intros H. rewrite (process_data_read hyg_file rows H).
  destruct (normalized rows); intros E; inversion E; reflexivity.
Qed.

Lemma add_columns_fields (r : CatalogRecord float other) :
  record (add_columns r) = r
  /\ (spect_class (add_columns r), spect_num (add_columns r))
     = extract_spectral_data (spect r)
  /\ color (add_columns r) = map_cell COLOR_MAP (spect_class (add_columns r)).
Proof.
  unfold add_columns. destruct (extract_spectral_data (spect r)); simpl; auto.
Qed.

Lemma corrected_fields (r : CatalogRecord float other) :
  id (corrected r) = id r /\ absmag (corrected r) = absmag r
  /\ ci (corrected r) = ci r /\ lum (corrected r) = lum r
  /\ others (corrected r) = others r
  /\ spect (corrected r) = if (id r =? 65218)%Z then Some "F7" else spect r.
Proof.
  unfold corrected. destruct (id r =? 65218)%Z; simpl; auto 10.
Qed.

End NormalizerFacts.

Lemma extract_no_class_letter (raw : string) :
  no_class_letter (strip (upper raw)) ->
  extract_spectral_data (Some raw) = (None, None).
Proof.
  intros H. apply re_search_None in H.
  rewrite extract_nonempty. now rewrite H.
Qed.

Section NormalizerClaims.

Local Open Scope list_scope.

Variables (float other : Type).
Variable read_csv : bytes -> option (list (CatalogRecord float other)).

(** C5.  A row that has its [absmag], [ci] and [spect] cells is in the frame
    [process_data] returns, under its own label and once, with its numeric
    cells as they were read, whether or not its spectral type can be
    classified: when the spectral type holds no class letter the class, the
    intensity and the colour of the row are absent, and the row is there all
    the same. *)
Theorem retained_rows_appear_once (hyg_file : bytes)
  (rows : list (CatalogRecord float other)) (l : nat)
  (r0 : CatalogRecord float other) :
  read_csv hyg_file = Some rows ->
  nth_error rows l = Some r0 ->
  required r0 = true ->
  exists out p,
    fst (process_data read_csv hyg_file) = Returned (Some out)
    /\ In (l, p) out
    /\ occurrences l out = 1
    /\ id (record p) = id r0 /\ absmag (record p) = absmag r0
    /\ ci (record p) = ci r0 /\ lum (record p) = lum r0
    /\ (spect_class p, spect_num p) = extract_spectral_data (spect (record p))
    /\ color p = map_cell COLOR_MAP (spect_class p)
    /\ (forall raw, spect (record p) = Some raw ->
                    no_class_letter (strip (upper raw)) ->
                    spect_class p = None /\ spect_num p = None /\ color p = None).
Proof.
  intros Hread Hnth Hreq.
  assert (Hin : In (l, add_columns (corrected r0)) (normalized rows)).
  { apply normalized_In. exists r0. auto. }
  exists (normalized rows), (add_columns (corrected r0)).
  destruct (add_columns_fields float other (corrected r0)) as (Hrec & Hcls & Hcol).
  destruct (corrected_fields float other r0) as (Hid & Habs & Hci & Hlum & _ & _).
  rewrite Hrec.
  split.
  { rewrite (process_data_read float other read_csv hyg_file rows Hread).
    destruct (normalized rows); [contradiction | reflexivity]. }
  split; [exact Hin|].
  split; [eapply occurrences_once; [apply normalized_NoDup | exact Hin]|].
  repeat (split; [assumption|]).
  intros raw Hraw Hno.
  rewrite Hraw, (extract_no_class_letter raw Hno) in Hcls.
  inversion Hcls as [[Hc Hn]]. rewrite Hcol, Hc. auto.
Qed.

(** C8.  A row of the frame [process_data] returns is the row that was read
    under the same label, with its [id], [absmag], [ci], [lum] and other
    cells unchanged, and with its [spect] cell unchanged unless its [id] is
    65218; the class, the intensity and the colour are further cells,
    computed from the [spect] cell. *)
Theorem original_fields_unchanged (hyg_file : bytes)
  (rows : list (CatalogRecord float other))
  (out : DataFrame (PlottableRow float other)) (l : nat)
  (p : PlottableRow float other) :
  read_csv hyg_file = Some rows ->
  fst (process_data read_csv hyg_file) = Returned (Some out) ->
  In (l, p) out ->
  exists r0,
    nth_error rows l = Some r0
    /\ id (record p) = id r0 /\ absmag (record p) = absmag r0
    /\ ci (record p) = ci r0 /\ lum (record p) = lum r0
    /\ others (record p) = others r0
    /\ (id r0 <> 65218%Z -> record p = r0)
    /\ (spect_class p, spect_num p) = extract_spectral_data (spect (record p))
    /\ color p = map_cell COLOR_MAP (spect_class p).
Proof.
  intros Hread Hout Hin.
  rewrite (process_data_returned float other read_csv hyg_file rows out Hread Hout)
    in Hin.
  apply normalized_In in Hin. destruct Hin as (r0 & Hnth & _ & ->).
  destruct (add_columns_fields float other (corrected r0)) as (Hrec & Hcls & Hcol).
  destruct (corrected_fields float other r0) as (Hid & Habs & Hci & Hlum & Hoth & _).
  exists r0. rewrite Hrec.
  repeat (split; [assumption|]).
  split; [|split; assumption].
  intros Hne. unfold corrected.
  destruct (Z.eqb_spec (id r0) 65218); [contradiction | reflexivity].
Qed.

(** C2.  In the frame [process_data] returns, a row whose [id] is 65218 has
    the spectral type ["F7"] and is classified from it: class F, intensity
    7.0, the colour of F.  The classifier itself, given the catalog's
    ["(G3w)F7"], answers class G and intensity 3.0.  A row with any other
    [id] keeps the spectral type that was read. *)
Theorem anomaly_fix_only_65218 (hyg_file : bytes)
  (rows : list (CatalogRecord float other))
  (out : DataFrame (PlottableRow float other)) (l : nat)
  (p : PlottableRow float other) :
  read_csv hyg_file = Some rows ->
  fst (process_data read_csv hyg_file) = Returned (Some out) ->
  In (l, p) out ->
  extract_spectral_data (Some "(G3w)F7") = (Some "G", Some 3%Z)
  /\ (id (record p) = 65218%Z ->
      spect (record p) = Some "F7" /\ spect_class p = Some "F"
      /\ spect_num p = Some 7%Z /\ color p = Some "#fff7e8")
  /\ (id (record p) <> 65218%Z ->
      exists r0, nth_error rows l = Some r0 /\ spect (record p) = spect r0).
Proof.
  intros Hread Hout Hin.
  rewrite (process_data_returned float other read_csv hyg_file rows out Hread Hout)
    in Hin.
  apply normalized_In in Hin. destruct Hin as (r0 & Hnth & _ & ->).
  destruct (add_columns_fields float other (corrected r0)) as (Hrec & Hcls & Hcol).
  destruct (corrected_fields float other r0) as (Hid & _ & _ & _ & _ & Hsp).
  rewrite Hrec, Hid, Hsp. rewrite Hsp in Hcls.
  split; [reflexivity|]. split.
  - intros E. rewrite E in *. simpl in Hcls. inversion Hcls as [[Hc Hn]].
    rewrite Hcol, Hc. auto.
  - intros Hne. exists r0. split; [exact Hnth|].
    destruct (Z.eqb_spec (id r0) 65218); [contradiction | reflexivity].
Qed.

(** C10.  When reading or decompressing the payload raises, [process_data]
    returns [None] after printing the error alone: no row is selected,
    corrected or classified, and no frame is built. *)
Theorem unreadable_payload_no_data (hyg_file : bytes) :
  read_csv hyg_file = None ->
  process_data read_csv hyg_file = (Returned None, [ProcessingError]).
Proof.
  intros H. unfold process_data. rewrite H. reflexivity.
Qed.

End NormalizerClaims.

(** ** The end-to-end scenario *)

Example process_catalog :
  fst (process_data read_catalog "hyg_v42.csv.gz")
  = Returned (Some
      [ (0, mkPlottableRow row_G2V (Some "G") (Some 2%Z) (Some "#ffe9b5"));
        (1, mkPlottableRow row_O5 (Some "O") (Some 5%Z) (Some "#8bd1ff"));
        (2, mkPlottableRow (set_spect row_anomaly "F7") (Some "F") (Some 7%Z)
              (Some "#fff7e8"));
        (4, mkPlottableRow row_unclassifiable None None None) ]).
Proof. reflexivity. Qed.

Example process_catalog_report :
  firstn 3 (snd (process_data read_catalog "hyg_v42.csv.gz"))
  = [ TotalStars 5;
      RowBeforeChange [(2, Some "(G3w)F7")];
      RowAfterChange [(2, Some "F7")] ].
Proof. reflexivity. Qed.

(** With no row left after [dropna], the column assignment raises. *)
Example process_no_rows :
  fst (process_data (fun _ => Some [row_no_spect]) "hyg_v42.csv.gz")
  = Raised ValueError.
Proof. reflexivity. Qed.

Lemma retained_rows_witness :
  exists out p,
    fst (process_data read_catalog "hyg_v42.csv.gz") = Returned (Some out)
    /\ In (4, p) out
    /\ occurrences 4 out = 1
    /\ id (record p) = id row_unclassifiable
    /\ absmag (record p) = absmag row_unclassifiable
    /\ ci (record p) = ci row_unclassifiable
    /\ lum (record p) = lum row_unclassifiable
    /\ (spect_class p, spect_num p) = extract_spectral_data (spect (record p))
    /\ color p = map_cell COLOR_MAP (spect_class p)
    /\ (forall raw, spect (record p) = Some raw ->
                    no_class_letter (strip (upper raw)) ->
                    spect_class p = None /\ spect_num p = None /\ color p = None).
Proof.
  apply (retained_rows_appear_once Q unit read_catalog "hyg_v42.csv.gz"
           catalog 4 row_unclassifiable); reflexivity.
Defined.

Lemma original_fields_witness :
  exists r0,
    nth_error catalog 2 = Some r0
    /\ id (record (add_columns (set_spect row_anomaly "F7"))) = id r0
    /\ absmag (record (add_columns (set_spect row_anomaly "F7"))) = absmag r0
    /\ ci (record (add_columns (set_spect row_anomaly "F7"))) = ci r0
    /\ lum (record (add_columns (set_spect row_anomaly "F7"))) = lum r0
    /\ others (record (add_columns (set_spect row_anomaly "F7"))) = others r0
    /\ (id r0 <> 65218%Z -> record (add_columns (set_spect row_anomaly "F7")) = r0)
    /\ (spect_class (add_columns (set_spect row_anomaly "F7")),
        spect_num (add_columns (set_spect row_anomaly "F7")))
       = extract_spectral_data
           (spect (record (add_columns (set_spect row_anomaly "F7"))))
    /\ color (add_columns (set_spect row_anomaly "F7"))
       = map_cell COLOR_MAP (spect_class (add_columns (set_spect row_anomaly "F7"))).
Proof.
  apply (original_fields_unchanged Q unit read_catalog "hyg_v42.csv.gz" catalog
           (normalized catalog) 2 (add_columns (set_spect row_anomaly "F7")));
    [reflexivity | reflexivity | simpl; auto].
Defined.

Lemma anomaly_fix_witness :
  extract_spectral_data (Some "(G3w)F7") = (Some "G", Some 3%Z)
  /\ (id (record (add_columns (set_spect row_anomaly "F7"))) = 65218%Z ->
      spect (record (add_columns (set_spect row_anomaly "F7"))) = Some "F7"
      /\ spect_class (add_columns (set_spect row_anomaly "F7")) = Some "F"
      /\ spect_num (add_columns (set_spect row_anomaly "F7")) = Some 7%Z
      /\ color (add_columns (set_spect row_anomaly "F7")) = Some "#fff7e8")
  /\ (id (record (add_columns (set_spect row_anomaly "F7"))) <> 65218%Z ->
      exists r0, nth_error catalog 2 = Some r0
                 /\ spect (record (add_columns (set_spect row_anomaly "F7")))
                    = spect r0).
Proof.
  apply (anomaly_fix_only_65218 Q unit read_catalog "hyg_v42.csv.gz" catalog
           (normalized catalog) 2 (add_columns (set_spect row_anomaly "F7")));
    [reflexivity | reflexivity | simpl; auto].
Defined.

Lemma unreadable_payload_witness :
  process_data unreadable "not a gzip file" = (Returned None, [ProcessingError]).
Proof.
  apply (unreadable_payload_no_data Q unit unreadable "not a gzip file").
  reflexivity.
Defined.

(** ** The latent-space plot against the classifier *)

Lemma COLOR_MAP_key_class_letter (a : ascii) (col : string) :
  get COLOR_MAP (String a EmptyString) = Some col -> is_class_letter a = true.
Proof.
  intros H. apply get_entry in H. simpl in H.
  repeat (destruct H as [H|H]; [inversion H; reflexivity|]). contradiction.
Qed.

Lemma extract_leading_class_letter (c : ascii) (rest : string) :
  is_class_letter (upper_char c) = true ->
  fst (extract_spectral_data (Some (String c rest)))
  = Some (String (upper_char c) EmptyString).
Proof.
  intros H. rewrite extract_nonempty, re_search_strip.
  cbn [upper]. rewrite re_search_cons, H.
  now destruct (match upper rest with
                | String d _ => if isdigit d then Some d else None
                | EmptyString => None
                end).
Qed.

(** C6, as the code has it.  The latent-space plot colours a row by the
    first character of its spectral type alone, upper-cased and looked up in
    [COLOR_MAP]: no colour for a missing or empty string.  A colour it
    assigns is the colour of the class [extract_spectral_data] finds, and
    the two agree on every string that starts with a class letter, in
    either case. *)
Theorem latent_color_first_character (spect : option string) :
  color_of_spect spect
  = match spect with
    | Some (String c _) => get COLOR_MAP (String (upper_char c) EmptyString)
    | _ => None
    end
  /\ (forall col, color_of_spect spect = Some col ->
        map_cell COLOR_MAP (fst (extract_spectral_data spect)) = Some col)
  /\ (forall c rest, spect = Some (String c rest) ->
        is_class_letter (upper_char c) = true ->
        color_of_spect spect
        = map_cell COLOR_MAP (fst (extract_spectral_data spect))).
Proof.
  assert (Hfirst : color_of_spect spect
    = match spect with
      | Some (String c _) => get COLOR_MAP (String (upper_char c) EmptyString)
      | _ => None
      end) by (destruct spect as [[|c rest]|]; reflexivity).
  split; [exact Hfirst|]. split.
  - intros col H. rewrite Hfirst in H.
    destruct spect as [[|c rest]|]; try discriminate.
    rewrite (extract_leading_class_letter c rest); [exact H|].
    apply (COLOR_MAP_key_class_letter _ col H).
  - intros c rest -> Hc. rewrite Hfirst.
    now rewrite (extract_leading_class_letter c rest Hc).
Qed.

(** C6 fails as stated: the catalog's ["(G3w)F7"] starts with a bracket, so
    the latent-space plot gives it no colour, while the class the
    classifier finds for it, G, has one. *)
Lemma latent_color_differs :
  color_of_spect (Some "(G3w)F7") = None
  /\ map_cell COLOR_MAP (fst (extract_spectral_data (Some "(G3w)F7")))
     = Some "#ffe9b5"
  /\ color_of_spect (Some " G2V") = None
  /\ map_cell COLOR_MAP (fst (extract_spectral_data (Some " G2V")))
     = Some "#ffe9b5".
Proof. repeat split. Qed.

(** Where the two do agree: a string that starts with its class letter. *)
Example latent_color_agrees :
  color_of_spect (Some "m3III") = Some "#ffa77d"
  /\ map_cell COLOR_MAP (fst (extract_spectral_data (Some "m3III")))
     = Some "#ffa77d"
  /\ color_of_spect (Some "L5") = None
  /\ map_cell COLOR_MAP (fst (extract_spectral_data (Some "L5"))) = None.
Proof. repeat split. Qed.

(** ** The classifier against the pattern of the specification *)

Lemma upper_app (s t : string) : upper (s ++ t) = upper s ++ upper t.
Proof.
  induction s as [|c s' IH]; simpl; [reflexivity | now rewrite IH].
Qed.

Lemma next_digit_upper (s : string) : next_digit (upper s) = next_digit s.
Proof.
  destruct s as [|c s']; simpl; [reflexivity|].
  rewrite upper_char_digit_iff.
  destruct (isdigit c) eqn:E; [|reflexivity].
  now rewrite (upper_char_digit c E).
Qed.

Lemma upper_spaces (s : string) : all isspace s -> no_class_letter (upper s).
Proof.
  unfold all, no_class_letter.
  induction s as [|c s' IH]; simpl; intros H; [constructor|].
  inversion H; subst. constructor; [|auto].
  apply isspace_not_class_letter. now rewrite upper_char_space.
Qed.

Lemma upper_no_class_letter (s : string) :
  no_class_letter_ci s -> no_class_letter (upper s).
Proof.
  unfold no_class_letter_ci, no_class_letter.
  induction s as [|c s' IH]; simpl; intros H; [constructor|].
  inversion H; subst. constructor; auto.
Qed.

Lemma re_search_skip (pre s : string) :
  no_class_letter pre -> re_search (pre ++ s) = re_search s.
Proof.
  unfold no_class_letter.
  induction pre as [|c pre' IH]; simpl; intros H; [reflexivity|].
  inversion H as [|x l Hc Hpre]; subst. rewrite Hc. auto.
Qed.

(** A greedy star hands the rest of the pattern a suffix, after a run of
    characters of its class. *)
Lemma star_sound (p : ascii -> bool) (next : string -> option groups)
  (s : string) (g : groups) :
  star p next s = Some g ->
  exists s1 s2, s = s1 ++ s2 /\ all p s1 /\ next s2 = Some g.
Proof.
  unfold all. induction s as [|c s' IH]; simpl; intros H.
  - exists EmptyString, EmptyString. repeat split; [constructor | exact H].
  - destruct (p c) eqn:Hc.
    + destruct (star p next s') as [g'|] eqn:E.
      * inversion H; subst g'.
        destruct (IH eq_refl) as (s1 & s2 & -> & H1 & H2).
        exists (String c s1), s2. repeat split; [constructor|]; assumption.
      * exists EmptyString, (String c s'). repeat split; [constructor | exact H].
    + exists EmptyString, (String c s'). repeat split; [constructor | exact H].
Qed.

(** The end of the pattern, [.*$], holds no group. *)
Lemma line_end_groups (s : string) (g : groups) :
  run [Star dot; EndOfString] s = Some g -> g = [].
Proof.
  cbn [run]. induction s as [|c s' IH]; cbn [star].
  - destruct (at_end EmptyString); intros H; now inversion H.
  - destruct (dot c).
    + destruct (star dot _ s') as [g'|] eqn:E.
      * intros H; inversion H; subst. now apply IH.
      * destruct (at_end (String c s')); intros H; now inversion H.
    + destruct (at_end (String c s')); intros H; now inversion H.
Qed.

(** A digit is not given back: the line cannot end before it. *)
Lemma line_end_after_digit (d : ascii) (s : string) :
  isdigit d = true ->
  run [Star dot; EndOfString] s = None ->
  run [Star dot; EndOfString] (String d s) = None.
Proof.
  intros Hd. cbn [run]. intros H. cbn [star]. rewrite H.
  assert (Hdot : dot d = true /\ Ascii.eqb d "010"%char = false).
  { revert Hd. destruct d as [[] [] [] [] [] [] [] []]; vm_compute;
      intros; split; congruence. }
  destruct Hdot as [-> Hnl].
  destruct s; cbn [at_end]; [now rewrite Hnl | reflexivity].
Qed.

(** The optional group holds the digit after the letter whenever there is
    one. *)
Lemma digit_group (s : string) (g : groups) :
  run [OptGroup isdigit; Star dot; EndOfString] s = Some g ->
  g = [next_digit s].
Proof.
  change (run [OptGroup isdigit; Star dot; EndOfString] s)
    with (match capture isdigit (run [Star dot; EndOfString]) s with
          | Some g => Some g
          | None => option_map (cons None) (run [Star dot; EndOfString] s)
          end).
  destruct s as [|d s']; cbn [capture next_digit].
  - destruct (run [Star dot; EndOfString] EmptyString) as [g'|] eqn:E;
      [|discriminate].
    apply line_end_groups in E. subst g'. intros H. now inversion H.
  - destruct (isdigit d) eqn:Hd.
    + destruct (run [Star dot; EndOfString] s') as [g'|] eqn:E.
      * apply line_end_groups in E. subst g'. intros H. now inversion H.
      * cbn [option_map]. rewrite (line_end_after_digit d s' Hd E). discriminate.
    + destruct (run [Star dot; EndOfString] (String d s')) as [g'|] eqn:E;
        [|discriminate].
      apply line_end_groups in E. subst g'. intros H. now inversion H.
Qed.

(** How a string that matches the pattern is cut. *)
Lemma spec_match_sound (raw : string) (g : groups) :
  spec_match raw = Some g ->
  exists ws al letter tail,
    raw = ws ++ al ++ String letter tail
    /\ all isspace ws /\ all isalpha al /\ class_letter_ci letter = true
    /\ g = [Some letter; next_digit tail].
Proof.
  unfold spec_match, pattern. cbn [run]. intros H.
  apply star_sound in H. destruct H as (ws & r1 & -> & Hws & H).
  apply star_sound in H. destruct H as (al & r2 & -> & Hal & H).
  destruct r2 as [|letter tail]; [discriminate|]. simpl in H.
  destruct (class_letter_ci letter) eqn:Hl; [|discriminate].
  exists ws, al, letter, tail. repeat split; try assumption.
  pose proof (digit_group tail) as Hd. cbn [run] in Hd.
  destruct (match capture isdigit _ tail with
            | Some g0 => Some g0
            | None => _
            end) as [g'|]; [|discriminate].
  simpl in H. inversion H. now rewrite (Hd g' eq_refl).
Qed.

Lemma re_search_after (pre s : string) :
  re_search s <> None -> re_search (pre ++ s) <> None.
Proof.
  intros H. induction pre as [|a pre' IH]; simpl; [exact H|].
  destruct (is_class_letter a); [discriminate | exact IH].
Qed.

(** C1, as the code has it.  On a string that matches the pattern of the
    specification, [extract_spectral_data] returns the first class letter of
    the upper-cased, trimmed string, with the digit right after it as a
    float, and 5.0 when no digit follows.  The pattern cuts the string into
    white space, a run of letters, the letter it captures and a tail; its
    answer is that of the classifier whenever the run of letters before the
    captured one holds no class letter. *)
Theorem classify_first_class_letter (raw : string) (g : groups) :
  spec_match raw = Some g ->
  (exists c rest,
      first_class_letter (strip (upper raw)) c rest
      /\ extract_spectral_data (Some raw)
         = (Some (String c EmptyString), Some (intensity_after rest)))
  /\ (exists ws al letter tail,
        raw = ws ++ al ++ String letter tail
        /\ all isspace ws /\ all isalpha al /\ class_letter_ci letter = true
        /\ spec_classify raw
           = Some (String (upper_char letter) EmptyString, intensity_after tail)
        /\ (no_class_letter_ci al ->
            extract_spectral_data (Some raw)
            = (Some (String (upper_char letter) EmptyString),
               Some (intensity_after tail)))).
Proof.
  intros H.
  destruct (spec_match_sound raw g H)
    as (ws & al & letter & tail & E & Hws & Hal & Hl & Hg).
  assert (Hup : upper raw
                = upper ws ++ upper al ++ String (upper_char letter) (upper tail)).
  { rewrite E, !upper_app. reflexivity. }
  assert (Hhead : re_search (String (upper_char letter) (upper tail))
                  = Some (upper_char letter, next_digit tail)).
  { rewrite re_search_cons. unfold class_letter_ci in Hl. rewrite Hl.
    change (match upper tail with
            | String d _ => if isdigit d then Some d else None
            | EmptyString => None
            end) with (next_digit (upper tail)).
    now rewrite next_digit_upper. }
  split.
  - rewrite extract_nonempty.
    destruct (re_search (strip (upper raw))) as [[c d]|] eqn:Es.
    + destruct (re_search_Some _ c d Es) as (rest & Hf & ->).
      exists c, rest. split; [exact Hf|].
      unfold intensity_after. now destruct (next_digit rest).
    + exfalso. rewrite re_search_strip, Hup in Es. revert Es.
      do 2 apply re_search_after. rewrite Hhead. discriminate.
  - exists ws, al, letter, tail. repeat split; try assumption.
    + unfold spec_classify, intensity_after. rewrite H, Hg.
      now destruct (next_digit tail).
    + intros Hno.
      rewrite extract_nonempty, re_search_strip, Hup.
      rewrite (re_search_skip _ _ (upper_spaces ws Hws)).
      rewrite (re_search_skip _ _ (upper_no_class_letter al Hno)).
      rewrite Hhead. unfold intensity_after. now destruct (next_digit tail).
Qed.

Lemma classify_first_class_letter_witness :
  (exists c rest,
      first_class_letter (strip (upper "sdM4")) c rest
      /\ extract_spectral_data (Some "sdM4")
         = (Some (String c EmptyString), Some (intensity_after rest)))
  /\ (exists ws al letter tail,
        "sdM4" = ws ++ al ++ String letter tail
        /\ all isspace ws /\ all isalpha al /\ class_letter_ci letter = true
        /\ spec_classify "sdM4"
           = Some (String (upper_char letter) EmptyString, intensity_after tail)
        /\ (no_class_letter_ci al ->
            extract_spectral_data (Some "sdM4")
            = (Some (String (upper_char letter) EmptyString),
               Some (intensity_after tail)))).
Proof.
  apply (classify_first_class_letter "sdM4" [Some "M"%char; Some "4"%char]).
  reflexivity.
Defined.

(** C1 fails as stated: on the subdwarf type ["sdM4"] the pattern captures
    the letter M and the digit 4, and the classifier answers S with the
    default 5.0; on the white dwarf type ["DA5"] the pattern captures A, and
    the classifier answers D. *)
Lemma spec_pattern_letter_differs :
  spec_classify "sdM4" = Some ("M", 4%Z)
  /\ extract_spectral_data (Some "sdM4") = (Some "S", Some 5%Z)
  /\ spec_classify "DA5" = Some ("A", 5%Z)
  /\ extract_spectral_data (Some "DA5") = (Some "D", Some 5%Z).
Proof. repeat split. Qed.

(** * Further properties of the code *)

(** ** The classifier *)

Lemma float_of_digit_range (d : ascii) :
  isdigit d = true -> (0 <= float_of_digit d <= 9)%Z.
Proof.
  destruct d as [[] [] [] [] [] [] [] []]; vm_compute;
    intros H; try discriminate H; split; discriminate.
Qed.

Lemma next_digit_isdigit (rest : string) (d : ascii) :
  next_digit rest = Some d -> isdigit d = true.
Proof.
  destruct rest as [|x rest']; simpl; [discriminate|].
  destruct (isdigit x) eqn:E; intros H; inversion H; subst; exact E.
Qed.

Lemma is_class_letter_In (c : ascii) :
  is_class_letter c = true <-> In c class_letters.
Proof.
  unfold is_class_letter. rewrite existsb_exists. split.
  - intros (x & Hin & E). apply Ascii.eqb_eq in E. now subst.
  - intros H. exists c. split; [exact H | apply Ascii.eqb_refl].
Qed.

Lemma intensity_after_range (rest : string) :
  (0 <= intensity_after rest <= 9)%Z.
Proof.
  unfold intensity_after. destruct (next_digit rest) as [d|] eqn:E; [|lia].
  apply float_of_digit_range, (next_digit_isdigit rest d E).
Qed.

(** Where a class that is returned comes from. *)
Lemma extract_class_inv (spect : option string) (cls : string) (n : option Z) :
  extract_spectral_data spect = (Some cls, n) ->
  exists c rest, cls = String c EmptyString /\ is_class_letter c = true
                 /\ n = Some (intensity_after rest).
Proof.
  destruct spect as [raw|]; [|discriminate].
  rewrite extract_nonempty.
  destruct (re_search (strip (upper raw))) as [[c d]|] eqn:E; [|discriminate].
  destruct (re_search_Some _ c d E) as (rest & (pre & _ & _ & Hc) & ->).
  intros H. exists c, rest. unfold intensity_after.
  destruct (next_digit rest); inversion H; auto.
Qed.

(** X1.  Whatever [extract_spectral_data] returns as a class is one
    character, one of the fifteen letters of the pattern, and whatever it
    returns as an intensity lies between 0 and 9. *)
Theorem extract_output_range (spect : option string) (cls : string) (n : Z) :
  extract_spectral_data spect = (Some cls, Some n) ->
  (exists c, cls = String c EmptyString /\ In c class_letters)
  /\ (0 <= n <= 9)%Z.
Proof.
  intros H.
  destruct (extract_class_inv spect cls (Some n) H) as (c & rest & -> & Hc & Hn).
  inversion Hn; subst n. split.
  - exists c. split; [reflexivity | now apply is_class_letter_In].
  - apply intensity_after_range.
Qed.

Lemma extract_output_range_witness :
  (exists c, "M" = String c EmptyString /\ In c class_letters)
  /\ (0 <= 3 <= 9)%Z.
Proof.
  apply (extract_output_range (Some "  m3iii ") "M" 3). reflexivity.
Defined.

Lemma upper_char_idempotent (c : ascii) : upper_char (upper_char c) = upper_char c.
Proof.
  destruct c as [[] [] [] [] [] [] [] []]; reflexivity.
Qed.

Lemma upper_idempotent (s : string) : upper (upper s) = upper s.
Proof.
  induction s as [|c s' IH]; simpl; [reflexivity|].
  now rewrite upper_char_idempotent, IH.
Qed.

Lemma upper_lstrip (s : string) : upper (lstrip s) = lstrip (upper s).
Proof.
  induction s as [|c s' IH]; simpl; [reflexivity|].
  rewrite upper_char_space. now destruct (isspace c).
Qed.

Lemma upper_rstrip (s : string) : upper (rstrip s) = rstrip (upper s).
Proof.
  induction s as [|c s' IH]; simpl; [reflexivity|].
  rewrite <- IH, upper_char_space.
  destruct (rstrip s'); simpl; [now destruct (isspace c) | reflexivity].
Qed.

(** X2.  Classifying a spectral type that is already upper-cased, or
    already trimmed, or both, gives what classifying the raw string gives:
    case and surrounding white space never change the answer. *)
Theorem extract_normalised_input (raw : string) :
  extract_spectral_data (Some (upper raw)) = extract_spectral_data (Some raw)
  /\ extract_spectral_data (Some (strip raw)) = extract_spectral_data (Some raw)
  /\ extract_spectral_data (Some (strip (upper raw)))
     = extract_spectral_data (Some raw).
Proof.
  assert (Hstrip : forall s, re_search (strip (upper (strip s)))
                             = re_search (strip (upper s))).
  { intros s. rewrite !re_search_strip. unfold strip.
    now rewrite upper_rstrip, upper_lstrip, re_search_rstrip, re_search_lstrip. }
  rewrite !extract_nonempty. split; [|split].
  - now rewrite upper_idempotent.
  - now rewrite Hstrip.
  - now rewrite Hstrip, upper_idempotent.
Qed.

(** X3.  The answer is decided by the first class letter, in either case,
    and the one character after it: with no class letter before it, the
    class is that letter upper-cased and the intensity is the digit that
    follows it, or 5.0; what stands before the letter and what comes after
    the next character play no part. *)
Theorem extract_first_letter_decides (pre : string) (c : ascii) (tail : string) :
  no_class_letter_ci pre ->
  class_letter_ci c = true ->
  extract_spectral_data (Some (pre ++ String c tail))
  = (Some (String (upper_char c) EmptyString), Some (intensity_after tail)).
Proof.
  intros Hpre Hc.
  rewrite extract_nonempty, re_search_strip, upper_app.
  rewrite (re_search_skip _ _ (upper_no_class_letter pre Hpre)).
  cbn [upper]. rewrite re_search_cons.
  unfold class_letter_ci in Hc. rewrite Hc.
  change (match upper tail with
          | String d _ => if isdigit d then Some d else None
          | EmptyString => None
          end) with (next_digit (upper tail)).
  rewrite next_digit_upper. unfold intensity_after.
  now destruct (next_digit tail).
Qed.

Lemma extract_first_letter_decides_witness :
  extract_spectral_data (Some ("(" ++ String "g" "3w)F7"))
  = (Some (String (upper_char "g") EmptyString), Some (intensity_after "3w)F7")).
Proof.
  apply (extract_first_letter_decides "(" "g" "3w)F7").
  - repeat constructor.
  - reflexivity.
Defined.

(** X4.  A star that is classified has a colour unless its class is L: the
    colour looked up for the class [extract_spectral_data] returns is absent
    exactly when the class is absent or is ["L"]. *)
Theorem color_absent_only_for_L (spect : option string) :
  map_cell COLOR_MAP (fst (extract_spectral_data spect)) = None
  <-> fst (extract_spectral_data spect) = None
      \/ fst (extract_spectral_data spect) = Some "L".
Proof.
  destruct (extract_spectral_data spect) as [[cls|] n] eqn:E; simpl;
    [|split; [auto | reflexivity]].
  destruct (extract_class_inv spect cls n E) as (c & _ & -> & Hc & _).
  apply is_class_letter_In in Hc. simpl in Hc.
  repeat (destruct Hc as [<-|Hc];
          [vm_compute; split;
           [ first [discriminate | auto]
           | intros [H|H]; first [discriminate H | reflexivity] ]|]).
  contradiction.
Qed.

(** ** The frame [process_data] builds *)

Section FrameOrder.

Local Open Scope list_scope.

Variable R : Type.

Lemma filter_combine_seq (f : R -> bool) (rows : list R) (a : nat) :
  map snd (filter (fun r => f (snd r)) (combine (seq a (List.length rows)) rows))
  = filter f rows.
Proof.
  revert a; induction rows as [|x rows' IH]; intros a; simpl; [reflexivity|].
  destruct (f x); simpl; now rewrite IH.
Qed.

Lemma filter_combine_seq_labels (f : nat * R -> bool) (rows : list R) (a : nat) :
  Forall (fun l => a <= l)
    (map fst (filter f (combine (seq a (List.length rows)) rows)))
  /\ StronglySorted lt
       (map fst (filter f (combine (seq a (List.length rows)) rows))).
Proof.
  revert a; induction rows as [|x rows' IH]; intros a; simpl;
    [split; constructor|].
  destruct (IH (S a)) as [Hge Hs].
  assert (Hge' : Forall (fun l => a < l)
            (map fst (filter f (combine (seq (S a) (List.length rows')) rows')))).
  { eapply Forall_impl; [|exact Hge]. intros l Hl. exact Hl. }
  assert (Hge'' : Forall (fun l => a <= l)
            (map fst (filter f (combine (seq (S a) (List.length rows')) rows')))).
  { eapply Forall_impl; [|exact Hge]. intros l Hl. cbv beta in Hl. lia. }
  destruct (f (a, x)); simpl.
  - split.
    + constructor; [lia | exact Hge''].
    + constructor; [exact Hs | exact Hge'].
  - split; [exact Hge'' | exact Hs].
Qed.

End FrameOrder.

Section NormalizerOrder.

Local Open Scope list_scope.

Variables (float other : Type).
Variable read_csv : bytes -> option (list (CatalogRecord float other)).

Lemma correct_anomaly_map (df : DataFrame (CatalogRecord float other)) :
  correct_anomaly df = map (fun r => (fst r, corrected (snd r))) df.
Proof.
  unfold correct_anomaly, corrected. apply map_ext.
  intros [l r]; simpl. now destruct (id r =? 65218)%Z.
Qed.

Lemma normalized_records (rows : list (CatalogRecord float other)) :
  map (fun x => record (snd x)) (normalized rows)
  = map corrected (filter required rows).
Proof.
  unfold normalized. rewrite correct_anomaly_map, !map_map. simpl.
  rewrite <- (filter_combine_seq _ required rows 0), map_map.
  apply map_ext. intros [l r]; simpl.
  apply (add_columns_fields float other (corrected r)).
Qed.

Lemma normalized_labels (rows : list (CatalogRecord float other)) :
  map fst (normalized rows) = map fst (dropna (range_index rows)).
Proof.
  unfold normalized. rewrite map_map. simpl.
  change (fun x : nat * CatalogRecord float other => fst x)
    with (@fst nat (CatalogRecord float other)).
  apply correct_anomaly_labels.
Qed.

(** X5.  A row that lacks [absmag], [ci] or [spect] is in no frame
    [process_data] returns: its label does not occur there.  This holds for
    the star 65218 as well, which is dropped, not repaired, when its
    spectral type is missing. *)
Theorem incomplete_rows_dropped (hyg_file : bytes)
  (rows : list (CatalogRecord float other))
  (out : DataFrame (PlottableRow float other)) (l : nat)
  (r0 : CatalogRecord float other) :
  read_csv hyg_file = Some rows ->
  fst (process_data read_csv hyg_file) = Returned (Some out) ->
  nth_error rows l = Some r0 ->
  required r0 = false ->
  occurrences l out = 0 /\ forall p, ~ In (l, p) out.
Proof.
  intros Hread Hout Hnth Hreq.
  rewrite (process_data_returned float other read_csv hyg_file rows out Hread Hout).
  assert (Hno : forall p, ~ In (l, p) (normalized rows)).
  { intros p Hin. apply normalized_In in Hin.
    destruct Hin as (r & Hr & Hreq' & _). congruence. }
  split; [|exact Hno].
  apply occurrences_absent. intros Hin. apply in_map_iff in Hin.
  destruct Hin as ([l' p] & E & Hin). simpl in E. subst l'.
  exact (Hno p Hin).
Qed.

(** X6.  The frame [process_data] returns holds the complete rows of the
    file in the order they were read, each with the anomaly correction
    applied, under labels that increase strictly; the count it prints as
    remaining is the number of these rows. *)
Theorem retained_rows_in_order (hyg_file : bytes)
  (rows : list (CatalogRecord float other))
  (out : DataFrame (PlottableRow float other)) :
  read_csv hyg_file = Some rows ->
  fst (process_data read_csv hyg_file) = Returned (Some out) ->
  map (fun x => record (snd x)) out = map corrected (filter required rows)
  /\ StronglySorted lt (map fst out)
  /\ List.length out = List.length (filter required rows)
  /\ In (StarsRemaining (List.length (filter required rows)))
        (snd (process_data read_csv hyg_file)).
Proof.
  intros Hread Hout.
  pose proof (process_data_returned float other read_csv hyg_file rows out
                Hread Hout) as ->.
  assert (Hlen : List.length (normalized rows)
                 = List.length (filter required rows)).
  { rewrite <- (length_map (fun x => record (snd x))), normalized_records.
    apply length_map. }
  split; [apply normalized_records|].
  split; [rewrite normalized_labels; unfold dropna, range_index;
          apply filter_combine_seq_labels|].
  split; [exact Hlen|].
  rewrite <- Hlen. unfold process_data, normalized in *. rewrite Hread in *.
  destruct (correct_anomaly (dropna (range_index rows))) as [|x df];
    [discriminate|].
  simpl. auto 10.
Qed.


Lemma select_spect_corrected (df : DataFrame (CatalogRecord float other)) :
  select_spect (correct_anomaly df)
  = map (fun c => (fst c, Some "F7")) (select_spect df).
Proof.
  unfold select_spect, correct_anomaly, star_id_to_correct.
  induction df as [|[l r] df' IH]; simpl; [reflexivity|].
  destruct (id r =? 65218)%Z eqn:E; simpl; rewrite E; simpl;
    now rewrite IH.
Qed.

(** X8.  Whenever the file is read, the second and third things
    [process_data] prints are the report of the correction: before it, the
    spectral type of every complete row whose [id] is 65218, under its
    label; after it, ["F7"] under the same labels. *)
Theorem correction_report (hyg_file : bytes)
  (rows : list (CatalogRecord float other)) :
  read_csv hyg_file = Some rows ->
  exists cells,
    nth_error (snd (process_data read_csv hyg_file)) 1
    = Some (RowBeforeChange cells)
    /\ nth_error (snd (process_data read_csv hyg_file)) 2
       = Some (RowAfterChange (map (fun c => (fst c, Some "F7")) cells))
    /\ forall l s, In (l, s) cells
                   <-> exists r0, nth_error rows l = Some r0
                                  /\ required r0 = true
                                  /\ id r0 = 65218%Z /\ spect r0 = s.
Proof.
  intros Hread. exists (select_spect (dropna (range_index rows))).
  unfold process_data. rewrite Hread.
  rewrite select_spect_corrected.
  split; [|split].
  - now destruct (correct_anomaly (dropna (range_index rows))).
  - now destruct (correct_anomaly (dropna (range_index rows))).
  - intros l s. unfold select_spect, star_id_to_correct, dropna.
    rewrite in_map_iff. split.
    + intros ([l' r] & E & Hin). simpl in E. inversion E; subst.
      apply filter_In in Hin. destruct Hin as [Hin Hid].
      apply filter_In in Hin. destruct Hin as [Hin Hreq].
      apply range_index_In in Hin. simpl in *.
      exists r. repeat split; auto. now apply Z.eqb_eq.
    + intros (r0 & Hn & Hreq & Hid & <-). exists (l, r0).
      split; [reflexivity|]. apply filter_In. simpl.
      split; [|now apply Z.eqb_eq].
      apply filter_In. split; [now apply range_index_In | exact Hreq].
Qed.

End NormalizerOrder.

Example process_anomalies :
  fst (process_data read_anomalies "hyg_v42.csv.gz")
  = Returned (Some
      [ (1, mkPlottableRow row_G2V (Some "G") (Some 2%Z) (Some "#ffe9b5"));
        (2, mkPlottableRow (set_spect row_anomaly "F7") (Some "F") (Some 7%Z)
              (Some "#fff7e8"));
        (3, mkPlottableRow (set_spect row_anomaly_again "F7") (Some "F")
              (Some 7%Z) (Some "#fff7e8")) ]).
Proof. reflexivity. Qed.

Lemma incomplete_rows_dropped_witness :
  occurrences 0 (normalized catalog_anomalies) = 0
  /\ forall p, ~ In (0, p) (normalized catalog_anomalies).
Proof.
  apply (incomplete_rows_dropped Q unit read_anomalies "hyg_v42.csv.gz"
           catalog_anomalies (normalized catalog_anomalies) 0
           row_anomaly_no_spect); reflexivity.
Defined.

Lemma retained_rows_in_order_witness :
  map (fun x => record (snd x)) (normalized catalog_anomalies)
  = map corrected (filter required catalog_anomalies)
  /\ StronglySorted lt (map fst (normalized catalog_anomalies))
  /\ List.length (normalized catalog_anomalies)
     = List.length (filter required catalog_anomalies)
  /\ In (StarsRemaining (List.length (filter required catalog_anomalies)))
        (snd (process_data read_anomalies "hyg_v42.csv.gz")).
Proof.
  apply (retained_rows_in_order Q unit read_anomalies "hyg_v42.csv.gz"
           catalog_anomalies (normalized catalog_anomalies)); reflexivity.
Defined.


Lemma correction_report_witness :
  exists cells,
    nth_error (snd (process_data read_anomalies "hyg_v42.csv.gz")) 1
    = Some (RowBeforeChange cells)
    /\ nth_error (snd (process_data read_anomalies "hyg_v42.csv.gz")) 2
       = Some (RowAfterChange (map (fun c => (fst c, Some "F7")) cells))
    /\ forall l s, In (l, s) cells
                   <-> exists r0, nth_error catalog_anomalies l = Some r0
                                  /\ required r0 = true
                                  /\ id r0 = 65218%Z /\ spect r0 = s.
Proof.
  apply (correction_report Q unit read_anomalies "hyg_v42.csv.gz"
           catalog_anomalies); reflexivity.
Defined.

Example correction_report_anomalies :
  firstn 3 (snd (process_data read_anomalies "hyg_v42.csv.gz"))
  = [ TotalStars 4;
      RowBeforeChange [(2, Some "(G3w)F7"); (3, Some "G3")];
      RowAfterChange [(2, Some "F7"); (3, Some "F7")] ].
Proof. reflexivity. Qed.

(** ** Retrieval, continued *)

Section DownloadMore.

Local Open Scope list_scope.

Variable get : string -> outcome Response.

Lemma download_loop_fault (pre : list string) (url : string)
  (post : list string) (e : exn) :
  Forall (fails get) pre ->
  attempt get url = Raised e ->
  (forall r, e <> RequestException r) ->
  fst (download_loop get (pre ++ url :: post)) = Raised e
  /\ requested (snd (download_loop get (pre ++ url :: post))) = pre ++ [url].
Proof.
  intros Hpre Hurl Hne. induction Hpre as [|u pre' [r Hu] _ IH]; simpl.
  - rewrite Hurl. destruct e as [r| |]; [now destruct (Hne r) | |];
      split; reflexivity.
  - rewrite Hu. destruct (download_loop get (pre' ++ url :: post)) as [res out].
    simpl in *. destruct IH as [-> ->]. split; reflexivity.
Qed.

(** X9.  An exception that is not a [RequestException] is not caught: when
    a source raises one, the sources before it having failed,
    [download_data] raises it, and requests no source after that one. *)
Theorem download_fault_propagates (pre : list string) (url : string)
  (post : list string) (e : exn) :
  HYG_URLS = pre ++ url :: post ->
  Forall (fails get) pre ->
  attempt get url = Raised e ->
  (forall r, e <> RequestException r) ->
  fst (download_data get) = Raised e
  /\ requested (snd (download_data get)) = pre ++ [url].
Proof.
  intros E Hpre Hurl Hne. unfold download_data.
  destruct (download_loop_fault pre url post e Hpre Hurl Hne) as [Hr Ho].
  rewrite <- E in Hr, Ho.
  destruct (download_loop get HYG_URLS) as [r out]. simpl in *. auto.
Qed.

Lemma attempt_returned (url : string) (f : bytes) :
  attempt get url = Returned f ->
  exists r, get url = Returned r /\ content r = f
            /\ ((status_code r < 400)%Z \/ (600 <= status_code r)%Z).
Proof.
  unfold attempt, raise_for_status. destruct (get url) as [r|e]; [|discriminate].
  destruct (400 <=? status_code r)%Z eqn:E1;
    destruct (status_code r <? 600)%Z eqn:E2; simpl;
    try discriminate; intros H; inversion H; exists r;
    repeat split; apply Z.leb_gt in E1 || apply Z.ltb_ge in E2; auto.
Qed.

Lemma download_loop_payload (urls : list string) (f : bytes) :
  fst (download_loop get urls) = Returned (Some f) ->
  exists url, In url urls /\ attempt get url = Returned f.
Proof.
  induction urls as [|u urls' IH]; simpl; [discriminate|].
  destruct (attempt get u) as [g|e] eqn:Hu.
  - simpl. intros H; inversion H; subst. exists u. auto.
  - destruct e as [r| |]; simpl; try discriminate.
    destruct (download_loop get urls') as [res out]. simpl in *.
    intros H. destruct (IH H) as (url & Hin & Hurl). exists url. auto.
Qed.

(** X10.  A payload [download_data] returns is the content of a response
    one of the sources of [HYG_URLS] gave, and the status of that response
    is not an error status (not in 400..599). *)
Theorem download_payload_served (hyg_file : bytes) :
  fst (download_data get) = Returned (Some hyg_file) ->
  exists url r,
    In url HYG_URLS /\ get url = Returned r /\ content r = hyg_file
    /\ ((status_code r < 400)%Z \/ (600 <= status_code r)%Z).
Proof.
  unfold download_data. intros H.
  destruct (download_loop get HYG_URLS) as [res out] eqn:E. simpl in H.
  assert (H' : fst (download_loop get HYG_URLS) = Returned (Some hyg_file))
    by (rewrite E; exact H).
  destruct (download_loop_payload HYG_URLS hyg_file H') as (url & Hin & Hurl).
  destruct (attempt_returned url hyg_file Hurl) as (r & Hg & Hc & Hs).
  exists url, r. auto.
Qed.

Lemma download_loop_prefix (urls : list string) :
  exists rest, urls = requested (snd (download_loop get urls)) ++ rest.
Proof.
  induction urls as [|u urls' [rest IH]]; simpl; [now exists []|].
  destruct (attempt get u) as [g|e].
  - exists urls'. reflexivity.
  - destruct e as [r| |]; try (exists urls'; reflexivity).
    destruct (download_loop get urls') as [res out]. simpl in *.
    exists rest. now rewrite <- IH.
Qed.

(** X11.  Whatever the network answers, the sources [download_data]
    requests are an initial part of [HYG_URLS], in its order: no source is
    requested twice, skipped, or taken out of turn. *)
Theorem download_requests_in_order :
  exists rest, HYG_URLS = requested (snd (download_data get)) ++ rest.
Proof.
  unfold download_data.
  destruct (download_loop_prefix HYG_URLS) as [rest E].
  destruct (download_loop get HYG_URLS) as [res out]. simpl in *.
  exists rest. exact E.
Qed.

End DownloadMore.

Lemma download_fault_propagates_witness :
  fst (download_data timeout_then_fault) = Raised OtherException
  /\ requested (snd (download_data timeout_then_fault))
     = ([nth 0 HYG_URLS ""] ++ [nth 1 HYG_URLS ""])%list.
Proof.
  apply (download_fault_propagates timeout_then_fault
           [nth 0 HYG_URLS ""] (nth 1 HYG_URLS "") [] OtherException).
  - reflexivity.
  - constructor; [|constructor]. exists Timeout. reflexivity.
  - reflexivity.
  - intros r. discriminate.
Defined.

Lemma download_payload_served_witness :
  exists url r,
    In url HYG_URLS /\ timeout_then_ok url = Returned r /\ content r = "payload"
    /\ ((status_code r < 400)%Z \/ (600 <= status_code r)%Z).
Proof.
  apply (download_payload_served timeout_then_ok "payload"). reflexivity.
Defined.

(** ** The legend and the entry point *)

Lemma legend_patches_table :
  legend_patches = map (fun item => mkPatch (snd item) (fst item)) COLOR_MAP.
Proof. reflexivity. Qed.

Section MainFacts.

Local Open Scope list_scope.

Variables (float other : Type).
Variable get : string -> outcome Response.
Variable read_csv : bytes -> option (list (CatalogRecord float other)).
Variable create_plot :
  DataFrame (PlottableRow float other) -> string -> outcome unit.

(** X12.  Every colour [process_data] gives a row is in the legend
    [create_plot] draws, on a patch labelled with the class of that row. *)
Theorem legend_covers_colors (hyg_file : bytes)
  (rows : list (CatalogRecord float other))
  (out : DataFrame (PlottableRow float other)) (l : nat)
  (p : PlottableRow float other) (col : string) :
  read_csv hyg_file = Some rows ->
  fst (process_data read_csv hyg_file) = Returned (Some out) ->
  In (l, p) out ->
  color p = Some col ->
  exists cls, spect_class p = Some cls /\ In (mkPatch col cls) legend_patches.
Proof.
  intros Hread Hout Hin Hcol.
  rewrite (process_data_returned float other read_csv hyg_file rows out Hread Hout)
    in Hin.
  apply normalized_In in Hin. destruct Hin as (r0 & _ & _ & ->).
  destruct (add_columns_fields float other (corrected r0)) as (_ & _ & Hc).
  rewrite Hc in Hcol.
  destruct (spect_class (add_columns (corrected r0))) as [cls|]; [|discriminate].
  exists cls. split; [reflexivity|].
  apply get_entry in Hcol. rewrite legend_patches_table.
  apply (in_map (fun item => mkPatch (snd item) (fst item)) _ _ Hcol).
Qed.

Lemma process_data_frame_inv (hyg_file : bytes)
  (df : DataFrame (PlottableRow float other)) :
  fst (process_data read_csv hyg_file) = Returned (Some df) ->
  exists rows, read_csv hyg_file = Some rows /\ df = normalized rows /\ df <> [].
Proof.
  destruct (read_csv hyg_file) as [rows|] eqn:Hread.
  - rewrite (process_data_read float other read_csv hyg_file rows Hread).
    destruct (normalized rows) as [|x df'] eqn:E; intros H; inversion H.
    exists rows. rewrite E. repeat split. discriminate.
  - unfold process_data. rewrite Hread. discriminate.
Qed.

Lemma no_plot_while_downloading (out : list download_line)
  (df : DataFrame (PlottableRow float other)) (path : string) :
  ~ In (Plotting df path) (map (@Downloading float other) out).
Proof.
  intros H. apply in_map_iff in H. destruct H as (x & E & _). discriminate.
Qed.

Lemma no_plot_while_processing (out : list (process_line float other))
  (df : DataFrame (PlottableRow float other)) (path : string) :
  ~ In (Plotting df path) (map (@Processing float other) out).
Proof.
  intros H. apply in_map_iff in H. destruct H as (x & E & _). discriminate.
Qed.

(** X13.  When every source fails, [main] ends without an exception after
    the download step: the file is never read and nothing is plotted. *)
Theorem main_without_data :
  Forall (fails get) HYG_URLS ->
  main get read_csv create_plot
  = (Returned tt, map Downloading (snd (download_data get)))
  /\ forall ev, In ev (snd (main get read_csv create_plot)) ->
                exists line, ev = Downloading line.
Proof.
  intros H.
  assert (E : main get read_csv create_plot
              = (Returned tt, map Downloading (snd (download_data get)))).
  { unfold main, download_data.
    destruct (download_loop_all_fail get HYG_URLS H) as [Hr _].
    destruct (download_loop get HYG_URLS) as [r out]. simpl in *.
    now rewrite Hr. }
  split; [exact E|]. rewrite E. simpl. intros ev Hin.
  apply in_map_iff in Hin. destruct Hin as (line & <- & _). eauto.
Qed.

(** X14.  [main] calls [create_plot] only with the path ["hr_diagram.png"]
    and with the frame [process_data] built from the payload
    [download_data] returned: the complete rows of that file, corrected and
    classified, of which there is at least one. *)
Theorem main_plots_normalized_frame
  (df : DataFrame (PlottableRow float other)) (path : string) :
  In (Plotting df path) (snd (main get read_csv create_plot)) ->
  path = "hr_diagram.png"
  /\ exists hyg_file rows,
       fst (download_data get) = Returned (Some hyg_file)
       /\ read_csv hyg_file = Some rows
       /\ df = normalized rows /\ df <> [].
Proof.
  unfold main. destruct (download_data get) as [r out].
  destruct r as [[hyg_file|]|e]; simpl;
    try (intros H; now apply no_plot_while_downloading in H).
  destruct (process_data read_csv hyg_file) as [r' out'] eqn:Ep.
  assert (Hfst : fst (process_data read_csv hyg_file) = r') by now rewrite Ep.
  assert (Hlog : ~ In (Plotting df path)
                   (map (@Downloading float other) out
                    ++ map (@Processing float other) out')).
  { intros H. apply in_app_or in H. destruct H as [H|H];
      [now apply no_plot_while_downloading in H
      |now apply no_plot_while_processing in H]. }
  destruct r' as [[df'|]|e']; simpl; try (intros H; now apply Hlog in H).
  assert (Hplot : In (Plotting df path)
            ((map (@Downloading float other) out
              ++ map (@Processing float other) out')
             ++ [Plotting df' "hr_diagram.png"]) ->
          path = "hr_diagram.png"
          /\ exists f rows, Returned (Some hyg_file) = Returned (Some f)
               /\ read_csv f = Some rows /\ df = normalized rows /\ df <> []).
  { intros H. apply in_app_or in H. destruct H as [H|[H|[]]];
      [now apply Hlog in H|].
    inversion H; subst df' path. split; [reflexivity|].
    destruct (process_data_frame_inv hyg_file df Hfst) as (rows & Hr & Hd & Hn).
    exists hyg_file, rows. auto. }
  destruct (create_plot df' "hr_diagram.png"); simpl; exact Hplot.
Qed.

End MainFacts.

Lemma legend_covers_colors_witness :
  exists cls,
    spect_class (add_columns (set_spect row_anomaly "F7")) = Some cls
    /\ In (mkPatch "#fff7e8" cls) legend_patches.
Proof.
  apply (legend_covers_colors Q unit read_catalog "hyg_v42.csv.gz" catalog
           (normalized catalog) 2 (add_columns (set_spect row_anomaly "F7"))
           "#fff7e8");
    [reflexivity | reflexivity | simpl; auto | reflexivity].
Defined.

Lemma main_without_data_witness :
  main all_down read_catalog plot_ok
  = (Returned tt, map Downloading (snd (download_data all_down)))
  /\ forall ev, In ev (snd (main all_down read_catalog plot_ok)) ->
                exists line, ev = Downloading line.
Proof.
  apply (main_without_data Q unit all_down read_catalog plot_ok).
  repeat constructor; eexists; reflexivity.
Defined.

Lemma main_plots_normalized_frame_witness :
  "hr_diagram.png" = "hr_diagram.png"
  /\ exists hyg_file rows,
       fst (download_data timeout_then_ok) = Returned (Some hyg_file)
       /\ read_catalog hyg_file = Some rows
       /\ normalized catalog = normalized rows /\ normalized catalog <> [].
Proof.
  apply (main_plots_normalized_frame Q unit timeout_then_ok read_catalog plot_ok
           (normalized catalog) "hr_diagram.png").
  vm_compute. auto 20.
Defined.

(** A whole run: the second source answers, the catalog is read, the frame
    is plotted. *)
Example main_run :
  fst (main timeout_then_ok read_catalog plot_ok) = Returned tt
  /\ last (snd (main timeout_then_ok read_catalog plot_ok))
          (Downloading StartingPipeline)
     = Plotting (normalized catalog) "hr_diagram.png".
Proof. split; reflexivity. Qed.

(** ** What [download_data] prints *)

Section DownloadReport.

Local Open Scope list_scope.

Variable get : string -> outcome Response.

Lemma download_loop_report (urls : list string) :
  (In DownloadSuccessful (snd (download_loop get urls))
   <-> exists f, fst (download_loop get urls) = Returned (Some f))
  /\ (In AllAttemptsFailed (snd (download_loop get urls))
      <-> fst (download_loop get urls) = Returned None).
Proof.
  induction urls as [|u urls' [IH1 IH2]]; simpl.
  - split; split; auto.
    + intros [H|[]]; discriminate.
    + intros (f & H); discriminate.
  - destruct (attempt get u) as [g|e]; simpl.
    + split; split; eauto.
      * intros [H|[H|[]]]; discriminate.
      * discriminate.
    + destruct e as [r| |]; simpl.
      * destruct (download_loop get urls') as [res out]. simpl in *.
        split; split.
        -- intros [H|[H|[H|H]]]; try discriminate. now apply IH1.
        -- intros H. right; right; right. now apply IH1.
        -- intros [H|[H|[H|H]]]; try discriminate. now apply IH2.
        -- intros H. right; right; right. now apply IH2.
      * split; split; try discriminate.
        -- intros [H|[]]; discriminate.
        -- intros (f & H); discriminate.
        -- intros [H|[]]; discriminate.
      * split; split; try discriminate.
        -- intros [H|[]]; discriminate.
        -- intros (f & H); discriminate.
        -- intros [H|[]]; discriminate.
Qed.

(** X15.  What [download_data] prints tells what it returns: it prints
    "Download successful." exactly when it returns a payload, and "All
    download attempts failed." exactly when it returns [None]. *)
Theorem download_report_truthful :
  (In DownloadSuccessful (snd (download_data get))
   <-> exists hyg_file, fst (download_data get) = Returned (Some hyg_file))
  /\ (In AllAttemptsFailed (snd (download_data get))
      <-> fst (download_data get) = Returned None).
Proof.
  unfold download_data.
  destruct (download_loop_report HYG_URLS) as [H1 H2].
  destruct (download_loop get HYG_URLS) as [res out]. simpl in *.
  split; split.
  - intros [H|H]; [discriminate | now apply H1].
  - intros H. right. now apply H1.
  - intros [H|H]; [discriminate | now apply H2].
  - intros H. right. now apply H2.
Qed.

End DownloadReport.
